(** * Tmux-Orchestrator: a shallow embedding of [tmux_utils.py]

    The Python module drives the [tmux] binary through [subprocess.run],
    reads a confirmation with [input] and reports with [print].  The
    embedding keeps these effects explicit: every method of
    [TmuxOrchestrator] becomes a computation in a small state-and-exception
    monad whose state is the pending standard input and the chronological
    trace of effects, and whose exceptions are the Python exceptions the
    module can raise.

    Text is modelled as [string], one [ascii] per character: the texts of
    the model are the Python strings over the characters U+0000 to U+00FF.
    The Python string methods used by the module ([strip], [split],
    [lower], [in], [int]) are embedded on these texts. *)

From Stdlib Require Import ZArith List String Ascii Bool Lia.
From Stdlib Require Import Numbers.DecimalString.
Import ListNotations.

Local Open Scope string_scope.
Local Open Scope Z_scope.

(** ** Python string primitives *)

Module PyStr.

(** [str.isspace] on one character, which is what [strip] removes: TAB,
    LF, VT, FF, CR, the four separators FS..US, the space, NEL (U+0085)
    and the no-break space (U+00A0). *)
Definition is_space (c : ascii) : bool :=
  let n := nat_of_ascii c in
  ((9 <=? n)%nat && (n <=? 13)%nat) || ((28 <=? n)%nat && (n <=? 32)%nat)
  || (n =? 133)%nat || (n =? 160)%nat.

Definition is_empty (s : string) : bool :=
  match s with EmptyString => true | String _ _ => false end.

Fixpoint lstrip (s : string) : string :=
  match s with
  | EmptyString => EmptyString
  | String c s' => if is_space c then lstrip s' else s
  end.

Fixpoint rstrip (s : string) : string :=
  match s with
  | EmptyString => EmptyString
  | String c s' =>
      let r := rstrip s' in
      if is_space c && is_empty r then EmptyString else String c r
  end.

(** [s.strip()] *)
Definition strip (s : string) : string := rstrip (lstrip s).

(** [s.split(sep)] for a one-character separator: always at least one
    field, one more than the number of separators. *)
Fixpoint split (sep : ascii) (s : string) : list string :=
  match s with
  | EmptyString => [EmptyString]
  | String c s' =>
      if Ascii.eqb c sep then EmptyString :: split sep s'
      else match split sep s' with
           | [] => [String c EmptyString]
           | field :: fields => String c field :: fields
           end
  end.

(** The lower-case form of one character: A..Z, and the capital letters
    U+00C0..U+00DE of Latin-1 (the sign U+00D7 is no letter), move up by
    32; every other character below U+0100 is its own lower-case form. *)
Definition lower_char (c : ascii) : ascii :=
  let n := nat_of_ascii c in
  if ((65 <=? n)%nat && (n <=? 90)%nat)
     || ((192 <=? n)%nat && (n <=? 222)%nat && negb (n =? 215)%nat)
  then ascii_of_nat (n + 32) else c.

(** [s.lower()] *)
Fixpoint lower (s : string) : string :=
  match s with
  | EmptyString => EmptyString
  | String c s' => String (lower_char c) (lower s')
  end.

Fixpoint starts_with (p s : string) : bool :=
  match p, s with
  | EmptyString, _ => true
  | String _ _, EmptyString => false
  | String a p', String b s' => Ascii.eqb a b && starts_with p' s'
  end.

(** [needle in hay] *)
Fixpoint contains (needle hay : string) : bool :=
  starts_with needle hay ||
  match hay with
  | EmptyString => false
  | String _ hay' => contains needle hay'
  end.

(** [str(n)] and the [{n}] of an f-string, for an [int]. *)
Definition of_Z (n : Z) : string := NilZero.string_of_int (Z.to_int n).

(** [c * n] for a one-character string [c]. *)
Fixpoint repeat (c : ascii) (n : nat) : string :=
  match n with
  | O => EmptyString
  | S n' => String c (repeat c n')
  end.

Definition digit_of (c : ascii) : option Z :=
  let n := nat_of_ascii c in
  if (48 <=? n)%nat && (n <=? 57)%nat then Some (Z.of_nat (n - 48)) else None.

(** The digits of an [int] literal as [int(s)] accepts them: a non-empty
    run of digits in which single underscores may separate digits.
    [prev] tells whether the previous character was a digit. *)
Fixpoint digits (s : string) (prev : bool) (acc : Z) : option Z :=
  match s with
  | EmptyString => if prev then Some acc else None
  | String c s' =>
      match digit_of c with
      | Some d => digits s' true (10 * acc + d)
      | None =>
          if Ascii.eqb c "_"%char && prev then digits s' false acc else None
      end
  end.

(** The blanks [int] skips around a literal: TAB, LF, VT, FF, CR and the
    space, and of the characters from U+0080 on NEL and the no-break
    space.  The separators FS..US are not among them. *)
Definition is_int_space (c : ascii) : bool :=
  let n := nat_of_ascii c in
  ((9 <=? n)%nat && (n <=? 13)%nat) || (n =? 32)%nat
  || (n =? 133)%nat || (n =? 160)%nat.

Fixpoint int_lstrip (s : string) : string :=
  match s with
  | EmptyString => EmptyString
  | String c s' => if is_int_space c then int_lstrip s' else s
  end.

Fixpoint int_rstrip (s : string) : string :=
  match s with
  | EmptyString => EmptyString
  | String c s' =>
      let r := int_rstrip s' in
      if is_int_space c && is_empty r then EmptyString else String c r
  end.

(** [int(s)]: surrounding blanks are ignored, one sign is allowed; [None]
    stands for the [ValueError] of a malformed literal.  The length of the
    literal is not bounded (the digit limit of recent interpreters is a
    setting of the interpreter, not of the module). *)
Definition int (s : string) : option Z :=
  match int_rstrip (int_lstrip s) with
  | String "-" s' => option_map Z.opp (digits s' false 0)
  | String "+" s' => digits s' false 0
  | s' => digits s' false 0
  end.

(** [lines[-n:] if len(lines) > n else lines] *)
Definition tail_lines {A : Type} (n : nat) (lines : list A) : list A :=
  if (n <? List.length lines)%nat
  then skipn (List.length lines - n) lines
  else lines.

End PyStr.

Definition LF : ascii := "010"%char.
Definition NL : string := String LF EmptyString.

(** ** Effects *)

(** The exceptions the module can meet.  [CalledProcessError] is the only
    one it ever catches. *)
Inductive PyExn : Type :=
| CalledProcessError (cmd : list string) (returncode : Z)
| ValueError
| IndexError
| TypeError
| EOFError.

Inductive Outcome (A : Type) : Type :=
| Return (a : A)
| Raise (e : PyExn).
Arguments Return {A} a.
Arguments Raise {A} e.

(** What one [subprocess.run(cmd, check=True)] can do: exit status zero with
    some standard output, or a non-zero status. *)
Inductive RunResult : Type :=
| Completed (stdout : string)
| NonZero (returncode : Z).

Inductive Event : Type :=
| EvRun (argv : list string) (r : RunResult)
| EvPrint (text : string)
| EvInput (prompt : string) (response : option string).

(** The world outside the module.  The multiplexer may change between two
    calls, so its answer depends on everything that happened so far. *)
Record Env : Type := mkEnv {
  gateway : list Event -> list string -> RunResult;
  now_iso : string;                           (* datetime.now().isoformat() *)
  cpe_str : list string -> Z -> string        (* str(e) of a CalledProcessError *)
}.

Record State : Type := mkState {
  stdin : list string;       (* the lines [input] will read *)
  trace : list Event         (* effects so far, oldest first *)
}.

Definition M (A : Type) : Type := State -> Outcome A * State.

Definition ret {A} (a : A) : M A := fun st => (Return a, st).

Definition raise {A} (e : PyExn) : M A := fun st => (Raise e, st).

Definition bind {A B} (m : M A) (k : A -> M B) : M B :=
  fun st =>
    match m st with
    | (Return a, st') => k a st'
    | (Raise e, st') => (Raise e, st')
    end.

Declare Scope py_scope.
Delimit Scope py_scope with py.
Notation "x <- m ;; k" := (bind m (fun x => k))
  (at level 61, m at next level, right associativity) : py_scope.
Notation "m ;;; k" := (bind m (fun _ => k))
  (at level 61, right associativity) : py_scope.
Local Open Scope py_scope.

Definition log (e : Event) (st : State) : State :=
  mkState (stdin st) (trace st ++ [e]).

(** [try: m except subprocess.CalledProcessError as e: h] *)
Definition try_except {A} (m : M A) (h : list string -> Z -> M A) : M A :=
  fun st =>
    match m st with
    | (Raise (CalledProcessError cmd rc), st') => h cmd rc st'
    | other => other
    end.

(** [for x in xs: acc = body x acc], leaving at the first exception. *)
Fixpoint for_each {X S : Type} (xs : list X) (body : X -> S -> M S) (acc : S)
  : M S :=
  match xs with
  | [] => ret acc
  | x :: xs' => acc' <- body x acc ;; for_each xs' body acc'
  end.

(** [print(text)] *)
Definition print (text : string) : M unit :=
  fun st => (Return tt, log (EvPrint text) st).

(** [input(prompt)]; an exhausted standard input raises [EOFError]. *)
Definition input (prompt : string) : M string :=
  fun st =>
    match stdin st with
    | [] => (Raise EOFError, log (EvInput prompt None) st)
    | line :: rest =>
        (Return line, mkState rest (trace st ++ [EvInput prompt (Some line)]))
    end.

(** The events a computation added, given the states before and after. *)
Definition new_events (before after : State) : list Event :=
  skipn (List.length (trace before)) (trace after).

Definition is_run (e : Event) : bool :=
  match e with EvRun _ _ => true | _ => false end.

(** The Gateway calls among some events, in order. *)
Definition runs (evs : list Event) : list Event := filter is_run evs.

Definition is_failed_run (e : Event) : bool :=
  match e with EvRun _ (NonZero _) => true | _ => false end.

(** ** The data model *)

Record TmuxWindow : Type := mkTmuxWindow {
  session_name : string;
  window_index : Z;
  window_name : string;
  active : bool
}.

Record TmuxSession : Type := mkTmuxSession {
  name : string;
  windows : list TmuxWindow;
  attached : bool
}.

(** The value of ["info"] in a window's slot of the status: the dictionary
    of details or the dictionary with the single key ["error"]. *)
Record WindowDetail : Type := mkWindowDetail {
  d_name : string;
  d_active : bool;
  d_panes : Z;
  d_layout : string;
  d_content : string
}.

Inductive WindowInfo : Type :=
| Detail (d : WindowDetail)
| ErrorInfo (error : string).

(** The dictionaries of [get_all_windows_status]; [None] in [wd_info] is
    Python's [None]. *)
Record WindowData : Type := mkWindowData {
  wd_index : Z;
  wd_name : string;
  wd_active : bool;
  wd_info : option WindowInfo
}.

Record SessionData : Type := mkSessionData {
  sd_name : string;
  sd_attached : bool;
  sd_windows : list WindowData
}.

Record Status : Type := mkStatus {
  st_timestamp : string;
  st_sessions : list SessionData
}.

(** The two attributes [__init__] sets. *)
Record TmuxOrchestrator : Type := mkTmuxOrchestrator {
  safety_mode : bool;
  max_lines_capture : Z
}.

Definition init : TmuxOrchestrator := mkTmuxOrchestrator true 1000.

Section Orchestrator.

Variable env : Env.
Variable self : TmuxOrchestrator.

(** [subprocess.run(argv, ..., check=True)] *)
Definition subprocess_run (argv : list string) : M string :=
  fun st =>
    let r := gateway env (trace st) argv in
    match r with
    | Completed out => (Return out, log (EvRun argv r) st)
    | NonZero rc => (Raise (CalledProcessError argv rc), log (EvRun argv r) st)
    end.

(** [f"{session_name}:{window_index}"] *)
Definition target (session : string) (index : Z) : string :=
  session ++ ":" ++ PyStr.of_Z index.

(** *** capture_window_content *)

Definition capture_cmd (session : string) (index num_lines : Z) : list string :=
  ["tmux"; "capture-pane"; "-t"; target session index; "-p"; "-S";
   "-" ++ PyStr.of_Z num_lines].

(** The line count after the guard at the head of the method. *)
Definition capped_lines (num_lines : Z) : Z :=
  if num_lines >? max_lines_capture self then max_lines_capture self
  else num_lines.

Definition capture_window_content (session : string) (index num_lines : Z)
  : M string :=
  let num_lines := capped_lines num_lines in
  try_except
    (subprocess_run (capture_cmd session index num_lines))
    (fun cmd rc => ret ("Error capturing window content: " ++ cpe_str env cmd rc)).

(** *** get_tmux_sessions *)

Definition list_sessions_cmd : list string :=
  ["tmux"; "list-sessions"; "-F"; "#{session_name}:#{session_attached}"].

Definition list_windows_cmd (session : string) : list string :=
  ["tmux"; "list-windows"; "-t"; session; "-F";
   "#{window_index}:#{window_name}:#{window_active}"].

(** One turn of the inner loop, over the lines [index:name:0/1]. *)
Definition window_line_body (session : string) (window_line : string)
    (windows : list TmuxWindow) : M (list TmuxWindow) :=
  if PyStr.is_empty window_line then ret windows
  else
    match PyStr.split ":" window_line with
    | [window_index; window_name; window_active] =>
        match PyStr.int window_index with
        | Some i =>
            ret (windows ++
                 [mkTmuxWindow session i window_name (window_active =? "1")%string])%list
        | None => raise ValueError
        end
    | _ => raise ValueError
    end.

(** One turn of the outer loop, over the lines [session_name:0/1]. *)
Definition session_line_body (line : string) (sessions : list TmuxSession)
  : M (list TmuxSession) :=
  if PyStr.is_empty line then ret sessions
  else
    match PyStr.split ":" line with
    | [session_name; attached] =>
        out <- subprocess_run (list_windows_cmd session_name) ;;
        windows <- for_each (PyStr.split LF (PyStr.strip out))
                            (window_line_body session_name) [] ;;
        ret (sessions ++
             [mkTmuxSession session_name windows (attached =? "1")%string])%list
    | _ => raise ValueError
    end.

(** The block under [try]. *)
Definition get_tmux_sessions_try : M (list TmuxSession) :=
  out <- subprocess_run list_sessions_cmd ;;
  for_each (PyStr.split LF (PyStr.strip out)) session_line_body [].

Definition get_tmux_sessions : M (list TmuxSession) :=
  try_except get_tmux_sessions_try
    (fun cmd rc =>
       print ("Error getting tmux sessions: " ++ cpe_str env cmd rc) ;;;
       ret []).

(** *** get_window_info *)

Definition display_cmd (session : string) (index : Z) : list string :=
  ["tmux"; "display-message"; "-t"; target session index; "-p";
   "#{window_name}:#{window_active}:#{window_panes}:#{window_layout}"].

(** [parts[i]] *)
Definition subscript (parts : list string) (i : nat) : M string :=
  match nth_error parts i with
  | Some part => ret part
  | None => raise IndexError
  end.

(** [int(s)] *)
Definition int_of (s : string) : M Z :=
  match PyStr.int s with
  | Some n => ret n
  | None => raise ValueError
  end.

(** The method has three ways to end without an exception: the detail
    dictionary, the [{"error": ...}] dictionary, and falling off the end of
    the [if], which is [None]. *)
Definition get_window_info (session : string) (index : Z)
  : M (option WindowInfo) :=
  try_except
    (out <- subprocess_run (display_cmd session index) ;;
     if PyStr.is_empty (PyStr.strip out) then ret None
     else
       let parts := PyStr.split ":" (PyStr.strip out) in
       p0 <- subscript parts 0 ;;
       p1 <- subscript parts 1 ;;
       p2 <- subscript parts 2 ;;
       panes <- int_of p2 ;;
       p3 <- subscript parts 3 ;;
       content <- capture_window_content session index 50 ;;
       ret (Some (Detail (mkWindowDetail p0 (p1 =? "1")%string panes p3 content))))
    (fun cmd rc =>
       ret (Some (ErrorInfo ("Could not get window info: " ++ cpe_str env cmd rc)))).

(** *** send_keys_to_window, send_command_to_window *)

Definition send_keys_cmd (session : string) (index : Z) (keys : string)
  : list string :=
  ["tmux"; "send-keys"; "-t"; target session index; keys].

(** The [try] block that ends [send_keys_to_window]. *)
Definition send_keys_try (session : string) (index : Z) (keys : string)
  : M bool :=
  try_except
    (subprocess_run (send_keys_cmd session index keys) ;;; ret true)
    (fun cmd rc =>
       print ("Error sending keys: " ++ cpe_str env cmd rc) ;;; ret false).

Definition send_keys_to_window (session : string) (index : Z) (keys : string)
    (confirm : bool) : M bool :=
  if safety_mode self && confirm then
    print ("SAFETY CHECK: About to send '" ++ keys ++ "' to "
           ++ target session index) ;;;
    response <- input "Confirm? (yes/no): " ;;
    if negb (PyStr.lower response =? "yes")%string then
      print "Operation cancelled" ;;; ret false
    else send_keys_try session index keys
  else send_keys_try session index keys.

Definition send_command_to_window (session : string) (index : Z)
    (command : string) (confirm : bool) : M bool :=
  sent <- send_keys_to_window session index command confirm ;;
  if negb sent then ret false
  else
    try_except
      (subprocess_run (send_keys_cmd session index "C-m") ;;; ret true)
      (fun cmd rc =>
         print ("Error sending Enter key: " ++ cpe_str env cmd rc) ;;;
         ret false).

(** *** get_all_windows_status *)

Definition window_status_body (session : TmuxSession) (window : TmuxWindow)
    (acc : list WindowData) : M (list WindowData) :=
  window_info <- get_window_info (name session) (window_index window) ;;
  ret (acc ++ [mkWindowData (window_index window) (window_name window)
                            (active window) window_info])%list.

Definition session_status_body (session : TmuxSession)
    (acc : list SessionData) : M (list SessionData) :=
  session_windows <- for_each (windows session) (window_status_body session) [] ;;
  ret (acc ++ [mkSessionData (name session) (attached session)
                             session_windows])%list.

Definition get_all_windows_status : M Status :=
  sessions <- get_tmux_sessions ;;
  let timestamp := now_iso env in
  status_sessions <- for_each sessions session_status_body [] ;;
  ret (mkStatus timestamp status_sessions).

(** *** find_window_by_name *)

Definition window_matches (pattern : string) (window : TmuxWindow) : bool :=
  PyStr.contains (PyStr.lower pattern) (PyStr.lower (window_name window)).

Definition find_in_session (pattern : string)
    (matches : list (string * Z)) (session : TmuxSession) : list (string * Z) :=
  fold_left
    (fun matches window =>
       if window_matches pattern window
       then (matches ++ [(name session, window_index window)])%list
       else matches)
    (windows session) matches.

Definition find_window_by_name (pattern : string) : M (list (string * Z)) :=
  sessions <- get_tmux_sessions ;;
  ret (fold_left (find_in_session pattern) sessions []).

(** *** create_monitoring_snapshot *)

(** The loop over [recent_lines]. *)
Definition render_lines (recent_lines : list string) (snapshot : string)
  : string :=
  fold_left
    (fun snapshot line =>
       if negb (PyStr.is_empty (PyStr.strip line))
       then snapshot ++ ("    | " ++ line ++ NL)
       else snapshot)
    recent_lines snapshot.

(** One turn of the loop over [session['windows']].  The membership test
    ['content' in window['info']] is a [TypeError] when the value is
    [None]. *)
Definition render_window (window : WindowData) (snapshot : string) : M string :=
  let snapshot :=
    snapshot ++ ("  Window " ++ PyStr.of_Z (wd_index window) ++ ": "
                 ++ wd_name window) in
  let snapshot := if wd_active window then snapshot ++ " (ACTIVE)" else snapshot in
  let snapshot := snapshot ++ NL in
  snapshot <-
    match wd_info window with
    | None => raise TypeError
    | Some (ErrorInfo _) => ret snapshot
    | Some (Detail d) =>
        let content_lines := PyStr.split LF (d_content d) in
        let recent_lines := PyStr.tail_lines 10 content_lines in
        let snapshot := snapshot ++ ("    Recent output:" ++ NL) in
        ret (render_lines recent_lines snapshot)
    end ;;
  ret (snapshot ++ NL).

Definition render_session (session : SessionData) (snapshot : string)
  : M string :=
  let snapshot :=
    snapshot ++ ("Session: " ++ sd_name session ++ " ("
                 ++ (if sd_attached session then "ATTACHED" else "DETACHED")
                 ++ ")" ++ NL) in
  let snapshot := snapshot ++ (PyStr.repeat "-" 30 ++ NL) in
  for_each (sd_windows session) render_window snapshot.

Definition render_status (status : Status) : M string :=
  let snapshot := "Tmux Monitoring Snapshot - " ++ st_timestamp status ++ NL in
  let snapshot := snapshot ++ (PyStr.repeat "=" 50 ++ NL ++ NL) in
  for_each (st_sessions status) render_session snapshot.

Definition create_monitoring_snapshot : M string :=
  status <- get_all_windows_status ;;
  render_status status.

End Orchestrator.

(** ** Stand-in gateways

    A Gateway that answers from a fixed table, whatever happened before;
    a command that is not in the table exits with status 1. *)

Module StandIn.

Fixpoint argv_eqb (a b : list string) : bool :=
  match a, b with
  | [], [] => true
  | x :: a', y :: b' => (x =? y)%string && argv_eqb a' b'
  | _, _ => false
  end.

Fixpoint lookup (table : list (list string * RunResult)) (argv : list string)
  : RunResult :=
  match table with
  | [] => NonZero 1
  | (cmd, r) :: table' => if argv_eqb cmd argv then r else lookup table' argv
  end.

Definition env_of (table : list (list string * RunResult)) : Env :=
  mkEnv (fun _ argv => lookup table argv)
        "2024-01-01T00:00:00"
        (fun _ rc => "exit status " ++ PyStr.of_Z rc).

Definition start (lines : list string) : State := mkState lines [].

End StandIn.

(** ** Vocabulary of the properties, and the systems they are tried on *)

(** [clamp(n, lo, hi)] as the specification words it. *)
Definition clamp (n lo hi : Z) : Z := Z.max lo (Z.min n hi).

(** Equality of two texts up to the case of their letters. *)
Definition ci_equal (a b : string) : Prop := PyStr.lower a = PyStr.lower b.

(** The gate is closed for this call: confirmation is required and the
    line on standard input, if there is one, is not the word. *)
Definition gate_rejects (self : TmuxOrchestrator) (confirm : bool) (st : State)
  : Prop :=
  safety_mode self && confirm = true /\
  forall response rest, stdin st = response :: rest -> ~ ci_equal response "yes".

(** A computation in which a failed Gateway call always ends as a
    [CalledProcessError], and which only ever adds to the trace. *)
Definition failure_surfaces {A : Type} (m : M A) : Prop :=
  forall st,
  exists evs,
    trace (snd (m st)) = (trace st ++ evs)%list /\
    (existsb is_failed_run evs = true ->
     exists cmd rc, fst (m st) = Raise (CalledProcessError cmd rc)).

(** Sessions "a" and "b"; the window list of "b" cannot be read. *)
Definition env_b_fails : Env :=
  StandIn.env_of
    [(list_sessions_cmd, Completed ("a:1" ++ NL ++ "b:0" ++ NL));
     (list_windows_cmd "a", Completed ("0:main:1" ++ NL));
     (list_windows_cmd "b", NonZero 1)].

Definition windows_belong (s : TmuxSession) : Prop :=
  Forall (fun w => session_name w = name s) (windows s).

(** Two sessions, three windows, every query answered. *)
Definition env_two_sessions : Env :=
  StandIn.env_of
    [(list_sessions_cmd, Completed ("a:1" ++ NL ++ "b:0" ++ NL));
     (list_windows_cmd "a",
      Completed ("0:Claude-Agent:1" ++ NL ++ "1:shell:0" ++ NL));
     (list_windows_cmd "b", Completed ("0:main:1" ++ NL));
     (display_cmd "a" 0, Completed ("Claude-Agent:1:1:b25d,80x24,0,0,0" ++ NL));
     (display_cmd "a" 1, Completed ("shell:0:2:c3f1,80x24,0,0,1" ++ NL));
     (capture_cmd "a" 0 50, Completed (NL ++ "line1" ++ NL ++ NL ++ "line2"));
     (capture_cmd "a" 1 50, Completed ("$ " ++ NL))].

Definition two_sessions : list TmuxSession :=
  [mkTmuxSession "a"
     [mkTmuxWindow "a" 0 "Claude-Agent" true; mkTmuxWindow "a" 1 "shell" false]
     true;
   mkTmuxSession "b" [mkTmuxWindow "b" 0 "main" true] false].

Fixpoint count_char (c : ascii) (s : string) : nat :=
  match s with
  | EmptyString => O
  | String a s' => (if Ascii.eqb a c then 1 else 0) + count_char c s'
  end.

(** A session called "my:work", and a window called "logs:tail". *)
Definition env_colon_session : Env :=
  StandIn.env_of [(list_sessions_cmd, Completed ("my:work:1" ++ NL))].

Definition env_colon_window : Env :=
  StandIn.env_of
    [(list_sessions_cmd, Completed ("a:1" ++ NL));
     (list_windows_cmd "a", Completed ("0:logs:tail:1" ++ NL))].

(** Some stretch of [text] is [pattern] up to the case of its letters. *)
Definition ci_substring (pattern text : string) : Prop :=
  exists pre mid post, text = pre ++ mid ++ post /\ ci_equal mid pattern.

Definition address (s : TmuxSession) (w : TmuxWindow) : string * Z :=
  (name s, window_index w).

(** Every window of the snapshot, in the order of the snapshot. *)
Definition all_windows (sessions : list TmuxSession) : list (string * Z) :=
  flat_map (fun s => map (address s) (windows s)) sessions.

Definition matching_windows (pattern : string) (sessions : list TmuxSession)
  : list (string * Z) :=
  flat_map
    (fun s => map (address s) (filter (window_matches pattern) (windows s)))
    sessions.







(** Window 1 of session "a" has gone by the time its details are asked. *)
Definition env_one_detail_fails : Env :=
  StandIn.env_of
    [(list_sessions_cmd, Completed ("a:1" ++ NL ++ "b:0" ++ NL));
     (list_windows_cmd "a",
      Completed ("0:Claude-Agent:1" ++ NL ++ "1:shell:0" ++ NL));
     (list_windows_cmd "b", Completed ("0:main:1" ++ NL));
     (display_cmd "a" 0, Completed ("Claude-Agent:1:1:b25d,80x24,0,0,0" ++ NL));
     (display_cmd "b" 0, Completed ("main:1:1:b25e,80x24,0,0,2" ++ NL));
     (capture_cmd "a" 0 50, Completed ("ready" ++ NL));
     (capture_cmd "b" 0 50, Completed ("$ " ++ NL))].

Definition non_blank (line : string) : bool :=
  negb (PyStr.is_empty (PyStr.strip line)).

Definition digest_line (line : string) : string := "    | " ++ line ++ NL.

Definition join_all (parts : list string) : string :=
  fold_right append "" parts.

(** The content of the specification's example: an empty line, "line1",
    an empty line, "line2". *)
Definition four_lines : string := NL ++ "line1" ++ NL ++ NL ++ "line2".

(** One session, one window, whose pane shows the four lines. *)
Definition env_four_lines : Env :=
  StandIn.env_of
    [(list_sessions_cmd, Completed ("a:1" ++ NL));
     (list_windows_cmd "a", Completed ("0:main:1" ++ NL));
     (display_cmd "a" 0, Completed ("main:1:1:b25d,80x24,0,0,0" ++ NL));
     (capture_cmd "a" 0 50, Completed four_lines)].

Definition unanswered (window : WindowData) : bool :=
  match wd_info window with None => true | Some _ => false end.

(** Some window slot of the status holds [None]. *)
Definition has_unanswered (status : Status) : bool :=
  existsb (fun session => existsb unanswered (sd_windows session))
          (st_sessions status).

(** The pane of window 0 of "a" answers the detail query with a blank
    line. *)
Definition env_blank_detail : Env :=
  StandIn.env_of
    [(list_sessions_cmd, Completed ("a:1" ++ NL));
     (list_windows_cmd "a", Completed ("0:main:1" ++ NL));
     (display_cmd "a" 0, Completed ("  " ++ NL))].

(** The commands that only read the multiplexer. *)
Definition is_read_argv (argv : list string) : bool :=
  match argv with
  | program :: verb :: _ =>
      (program =? "tmux")%string &&
      ((verb =? "list-sessions")%string || (verb =? "list-windows")%string
       || (verb =? "display-message")%string || (verb =? "capture-pane")%string)
  | _ => false
  end.

(** An effect of the read path: a reading command or a message; never a
    line taken from standard input. *)
Definition is_read_event (e : Event) : bool :=
  match e with
  | EvRun argv _ => is_read_argv argv
  | EvPrint _ => true
  | EvInput _ _ => false
  end.

(** A computation that leaves standard input alone and whose every effect
    is one of the read path. *)
Definition read_only {A : Type} (m : M A) : Prop :=
  forall st,
  exists evs,
    trace (snd (m st)) = (trace st ++ evs)%list /\
    stdin (snd (m st)) = stdin st /\
    forallb is_read_event evs = true.


Definition is_called_process_error (e : PyExn) : Prop :=
  exists cmd rc, e = CalledProcessError cmd rc.

(** No multiplexer server: every command exits with status 1. *)
Definition env_no_server : Env := StandIn.env_of [].

(** A server with no session: the session list is one empty line. *)
Definition env_no_sessions : Env :=
  StandIn.env_of [(list_sessions_cmd, Completed NL)].

(** The two lines that head every digest. *)
Definition digest_header (timestamp : string) : string :=
  ("Tmux Monitoring Snapshot - " ++ timestamp ++ NL)
  ++ (PyStr.repeat "=" 50 ++ NL ++ NL).

Definition non_empty (line : string) : bool := negb (PyStr.is_empty line).

(** The name and the attached flag a line [name:0/1] stands for. *)
Definition session_fields (line : string) : string * bool :=
  match PyStr.split ":" line with
  | [session_name; attached] => (session_name, (attached =? "1")%string)
  | _ => (EmptyString, false)
  end.

(** A window line in the shape the inner loop accepts. *)
Definition window_line_ok (line : string) : Prop :=
  exists i n a z, PyStr.split ":" line = [i; n; a] /\ PyStr.int i = Some z.

(** The window a line [index:name:0/1] of session [session] stands for. *)
Definition window_of_line (session line : string) : TmuxWindow :=
  match PyStr.split ":" line with
  | [i; n; a] =>
      mkTmuxWindow session
        (match PyStr.int i with Some z => z | None => 0 end)
        n (a =? "1")%string
  | _ => mkTmuxWindow session 0 EmptyString false
  end.

(** The windows that the answer [wout] to a window-list query lists. *)
Definition windows_of_output (session wout : string) : list TmuxWindow :=
  map (window_of_line session)
      (filter non_empty (PyStr.split LF (PyStr.strip wout))).

(** Event [ev] is the answered window-list query of session [s], and the
    windows of [s] are the ones that answer lists. *)
Definition answers_for (s : TmuxSession) (ev : Event) : Prop :=
  exists wout,
    ev = EvRun (list_windows_cmd (name s)) (Completed wout) /\
    windows s = windows_of_output (name s) wout /\
    Forall window_line_ok
      (filter non_empty (PyStr.split LF (PyStr.strip wout))).

(** A computation that only adds to the trace, and in which a
    [CalledProcessError] is always preceded by a failed Gateway call. *)
Definition cpe_is_logged {A : Type} (m : M A) : Prop :=
  forall st,
  exists evs,
    trace (snd (m st)) = (trace st ++ evs)%list /\
    (forall e, fst (m st) = Raise e -> is_called_process_error e ->
               existsb is_failed_run evs = true).

Definition is_input (e : Event) : bool :=
  match e with EvInput _ _ => true | _ => false end.

(** A Gateway that accepts every key sequence. *)
Definition env_accepts_keys : Env :=
  mkEnv (fun _ _ => Completed EmptyString) "2024-01-01T00:00:00"
        (fun _ rc => "exit status " ++ PyStr.of_Z rc).

(** The line that opens the block of a window in the digest. *)
Definition window_heading (window : WindowData) : string :=
  "  Window " ++ PyStr.of_Z (wd_index window) ++ ": " ++ wd_name window
  ++ (if wd_active window then " (ACTIVE)" else "") ++ NL.

(** The slot [d] repeats the index, name and active flag of window [w]. *)
Definition window_entry (w : TmuxWindow) (d : WindowData) : Prop :=
  wd_index d = window_index w /\
  wd_name d = window_name w /\
  wd_active d = active w.

(** The slot [d] repeats the name and attached flag of session [s] and
    has one entry per window of [s], in order. *)
Definition session_entry (s : TmuxSession) (d : SessionData) : Prop :=
  sd_name d = name s /\
  sd_attached d = attached s /\
  Forall2 window_entry (windows s) (sd_windows d).

(** The pane of window 0 of "a" answers the detail query with two fields
    only. *)
Definition env_short_detail : Env :=
  StandIn.env_of
    [(list_sessions_cmd, Completed ("a:1" ++ NL));
     (list_windows_cmd "a", Completed ("0:main:1" ++ NL));
     (display_cmd "a" 0, Completed ("main:1" ++ NL))].

(** A pane of twelve lines, the third of them blank. *)
Definition twelve_lines : string :=
  String.concat NL
    ["l1"; "l2"; ""; "l4"; "l5"; "l6"; "l7"; "l8"; "l9"; "l10"; "l11"; "l12"].



(** The state in which the dispatch of [keys] starts once the gate has let
    the call through: the state of the call when no confirmation is asked,
    and otherwise the state after the safety message and the answered
    prompt. *)
Definition after_gate (self : TmuxOrchestrator) (session : string) (index : Z)
    (keys : string) (confirm : bool) (st : State) : State :=
  if safety_mode self && confirm then
    match stdin st with
    | response :: rest =>
        mkState rest
          (trace st ++
           [EvPrint ("SAFETY CHECK: About to send '" ++ keys ++ "' to "
                     ++ target session index);
            EvInput "Confirm? (yes/no): " (Some response)])
    | [] => st
    end
  else st.

Definition is_ascii_char (c : ascii) : bool := (nat_of_ascii c <? 128)%nat.

(** A text of ASCII characters only. *)
Fixpoint is_ascii (s : string) : bool :=
  match s with
  | EmptyString => true
  | String c s' => is_ascii_char c && is_ascii s'
  end.

Definition is_upper (c : ascii) : bool :=
  (65 <=? nat_of_ascii c)%nat && (nat_of_ascii c <=? 90)%nat.

(** Two characters that are equal, or are the capital and the small form
    of one of the letters A..Z. *)
Definition same_letter (c d : ascii) : Prop :=
  c = d
  \/ (is_upper c = true /\ nat_of_ascii d = (nat_of_ascii c + 32)%nat)
  \/ (is_upper d = true /\ nat_of_ascii c = (nat_of_ascii d + 32)%nat).

(** Two texts of the same length that agree, place by place, up to the
    case of the letters A..Z. *)
Inductive same_up_to_case : string -> string -> Prop :=
| same_empty : same_up_to_case EmptyString EmptyString
| same_step (c d : ascii) (s t : string) :
    same_letter c d -> same_up_to_case s t ->
    same_up_to_case (String c s) (String d t).

(** Some stretch of [text] is [pattern] up to the case of A..Z. *)
Definition occurs_up_to_case (pattern text : string) : Prop :=
  exists pre mid post,
    text = pre ++ mid ++ post /\ same_up_to_case mid pattern.

(** The detail query of a window, asked after the events [tr], fails or is
    answered with at least four fields of which the third is a number. *)
Definition detail_settles_at (env : Env) (tr : list Event) (session : string)
    (index : Z) : Prop :=
  match gateway env tr (display_cmd session index) with
  | NonZero _ => True
  | Completed out =>
      exists p0 p1 p2 p3 more panes,
        PyStr.split ":" (PyStr.strip out) = p0 :: p1 :: p2 :: p3 :: more /\
        PyStr.int p2 = Some panes
  end.

(** What the slot of window [w] of session [s] must hold, and which events
    its assembly adds, when the assembly starts after the events [tr].
    If the detail query fails the slot holds the error dictionary and the
    query is the only event.  If it is answered the slot holds the detail
    dictionary made of the first four fields of the answer and of the pane
    text, and the events are the query and the capture of
    [min(50, max_lines_capture)] lines; the pane text is what the capture
    returned, or the text of the capture error. *)
Definition window_slot_at (env : Env) (self : TmuxOrchestrator)
    (s : TmuxSession) (w : TmuxWindow) (tr : list Event) (d : WindowData)
    (evs : list Event) : Prop :=
  wd_index d = window_index w /\
  wd_name d = window_name w /\
  wd_active d = active w /\
  let query := display_cmd (name s) (window_index w) in
  match gateway env tr query with
  | NonZero rc =>
      wd_info d
      = Some (ErrorInfo ("Could not get window info: " ++ cpe_str env query rc))
      /\ evs = [EvRun query (NonZero rc)]
  | Completed out =>
      exists p0 p1 p2 p3 more panes,
        PyStr.split ":" (PyStr.strip out) = p0 :: p1 :: p2 :: p3 :: more /\
        PyStr.int p2 = Some panes /\
        let capture :=
          capture_cmd (name s) (window_index w)
                      (Z.min 50 (max_lines_capture self)) in
        let r := gateway env (tr ++ [EvRun query (Completed out)]) capture in
        wd_info d
        = Some (Detail
                  (mkWindowDetail p0 (p1 =? "1")%string panes p3
                     match r with
                     | Completed text => text
                     | NonZero rc =>
                         "Error capturing window content: "
                         ++ cpe_str env capture rc
                     end))
        /\ evs = [EvRun query (Completed out); EvRun capture r]
  end.

(** The slots [ds] of the windows [ws] of session [s], assembled one after
    the other from the events [tr] on and ending with the events [tr']. *)
Inductive window_slots_along (env : Env) (self : TmuxOrchestrator)
    (s : TmuxSession)
  : list Event -> list TmuxWindow -> list WindowData -> list Event -> Prop :=
| window_slots_done (tr : list Event) :
    window_slots_along env self s tr [] [] tr
| window_slots_step (tr : list Event) (w : TmuxWindow) (ws : list TmuxWindow)
    (d : WindowData) (ds : list WindowData) (evs tr' : list Event) :
    window_slot_at env self s w tr d evs ->
    window_slots_along env self s (tr ++ evs) ws ds tr' ->
    window_slots_along env self s tr (w :: ws) (d :: ds) tr'.

(** The slots [ds] of the sessions [ss], assembled one after the other. *)
Inductive session_slots_along (env : Env) (self : TmuxOrchestrator)
  : list Event -> list TmuxSession -> list SessionData -> list Event -> Prop :=
| session_slots_done (tr : list Event) :
    session_slots_along env self tr [] [] tr
| session_slots_step (tr : list Event) (s : TmuxSession)
    (ss : list TmuxSession) (d : SessionData) (ds : list SessionData)
    (tr1 tr' : list Event) :
    sd_name d = name s ->
    sd_attached d = attached s ->
    window_slots_along env self s tr (windows s) (sd_windows d) tr1 ->
    session_slots_along env self tr1 ss ds tr' ->
    session_slots_along env self tr (s :: ss) (d :: ds) tr'.

(** * Properties *)

(** ** Reasoning about traces *)

Lemma skipn_length_app {A : Type} (l evs : list A) :
  skipn (List.length l) (l ++ evs) = evs.
Proof.
  induction l as [|x l IH]; simpl; auto.
Qed.

Lemma new_events_extends (st st' : State) (evs : list Event) :
  trace st' = (trace st ++ evs)%list -> new_events st st' = evs.
Proof.
  intros H. unfold new_events. rewrite H. apply skipn_length_app.
Qed.

Lemma new_events_log (st : State) (e : Event) :
  new_events st (log e st) = [e].
Proof.
  apply new_events_extends. reflexivity.
Qed.

Lemma runs_app (a b : list Event) : runs (a ++ b) = (runs a ++ runs b)%list.
Proof.
  apply filter_app.
Qed.

(** ** C1: the line count of the capture call *)

Lemma capped_lines_min (self : TmuxOrchestrator) (n : Z) :
  capped_lines self n = Z.min n (max_lines_capture self).
Proof.
  unfold capped_lines, Z.gtb, Z.min.
  destruct (n ?= max_lines_capture self); reflexivity.
Qed.

(** From one line up, and with a ceiling of at least one line, the guard
    agrees with the clamp. *)
Lemma capped_lines_clamp (self : TmuxOrchestrator) (n : Z) :
  1 <= n -> 1 <= max_lines_capture self ->
  capped_lines self n = clamp n 1 (max_lines_capture self).
Proof.
  intros Hn Hm. rewrite capped_lines_min. unfold clamp. lia.
Qed.

(** [capture_window_content] with its effects written out. *)
Lemma capture_window_content_eq (env : Env) (self : TmuxOrchestrator)
    (session : string) (index n : Z) (st : State) :
  let cmd := capture_cmd session index (Z.min n (max_lines_capture self)) in
  let r := gateway env (trace st) cmd in
  capture_window_content env self session index n st =
    (Return match r with
            | Completed out => out
            | NonZero rc =>
                "Error capturing window content: " ++ cpe_str env cmd rc
            end,
     log (EvRun cmd r) st).
Proof.
  intros cmd r.
  unfold capture_window_content, try_except, subprocess_run, ret.
  rewrite capped_lines_min. fold cmd. fold r.
  destruct r; reflexivity.
Qed.

(** C1, as the code has it.  [capture_window_content] makes exactly one
    Gateway call, a [capture-pane] whose line count is
    [min(n, max_lines_capture)]: the ceiling is enforced, there is no floor.
    With the ceiling at 1000 a request of 5000 becomes 1000 and a request
    of 0 stays 0.  The method never raises. *)
Theorem capture_line_count_is_min :
  forall (env : Env) (self : TmuxOrchestrator) (session : string)
         (index n : Z) (st : State),
    let cmd := capture_cmd session index (Z.min n (max_lines_capture self)) in
    let r := gateway env (trace st) cmd in
    capture_window_content env self session index n st =
      (Return match r with
              | Completed out => out
              | NonZero rc =>
                  "Error capturing window content: " ++ cpe_str env cmd rc
              end,
       log (EvRun cmd r) st)
    /\ new_events st (snd (capture_window_content env self session index n st))
       = [EvRun cmd r]
    /\ capped_lines init 5000 = 1000
    /\ capped_lines init 0 = 0.
Proof.
  intros env self session index n st cmd r.
  pose proof (capture_window_content_eq env self session index n st) as E.
  cbv zeta in E. fold cmd in E. fold r in E.
  split; [exact E|].
  split; [rewrite E; apply new_events_log|].
  split; reflexivity.
Qed.

(** C1 as the specification states it fails at a request of 0 lines: the
    call goes out with [-S -0], where the clamp would give [-S -1]. *)
Lemma capture_zero_lines_not_raised_to_one :
  let env := StandIn.env_of [] in
  let st := StandIn.start [] in
  runs (new_events st (snd (capture_window_content env init "s" 0 0 st)))
    = [EvRun ["tmux"; "capture-pane"; "-t"; "s:0"; "-p"; "-S"; "-0"] (NonZero 1)]
  /\ capped_lines init 0 <> clamp 0 1 (max_lines_capture init)
  /\ capture_cmd "s" 0 (capped_lines init 0)
     <> capture_cmd "s" 0 (clamp 0 1 (max_lines_capture init)).
Proof.
  split; [reflexivity|].
  split; [discriminate|].
  vm_compute. discriminate.
Qed.

(** ** C4 and C3: the safety gate and the two-step command *)

Lemma lower_char_cases (c : ascii) :
  (PyStr.lower_char c = "y"%char -> c = "y"%char \/ c = "Y"%char) /\
  (PyStr.lower_char c = "e"%char -> c = "e"%char \/ c = "E"%char) /\
  (PyStr.lower_char c = "s"%char -> c = "s"%char \/ c = "S"%char).
Proof.
  destruct c as [[] [] [] [] [] [] [] []]; vm_compute;
    repeat split; intros H; try discriminate H; auto.
Qed.

(** The responses the gate accepts are the eight spellings of the word. *)
Lemma ci_equal_yes (r : string) :
  ci_equal r "yes" <->
  In r ["yes"; "yeS"; "yEs"; "yES"; "Yes"; "YeS"; "YEs"; "YES"].
Proof.
  unfold ci_equal. split.
  - intros H.
    destruct r as [|a [|b [|c [|d r]]]]; try discriminate H.
    change (PyStr.lower "yes") with "yes" in H. simpl in H.
    injection H as Ha Hb Hc.
    apply (proj1 (lower_char_cases a)) in Ha.
    apply (proj1 (proj2 (lower_char_cases b))) in Hb.
    apply (proj2 (proj2 (lower_char_cases c))) in Hc.
    destruct Ha, Hb, Hc; subst; simpl; tauto.
  - intros H. simpl in H.
    repeat (destruct H as [H|H]; [subst r; reflexivity|]).
    contradiction.
Qed.

Lemma ci_equal_yes_eqb (r : string) :
  (PyStr.lower r =? "yes")%string = true <-> ci_equal r "yes".
Proof.
  unfold ci_equal. change (PyStr.lower "yes") with "yes". apply String.eqb_eq.
Qed.

Lemma send_keys_try_spec (env : Env) (session : string) (index : Z)
    (keys : string) (st : State) :
  let cmd := send_keys_cmd session index keys in
  send_keys_try env session index keys st =
    match gateway env (trace st) cmd with
    | Completed out => (Return true, log (EvRun cmd (Completed out)) st)
    | NonZero rc =>
        (Return false,
         log (EvPrint ("Error sending keys: " ++ cpe_str env cmd rc))
             (log (EvRun cmd (NonZero rc)) st))
    end.
Proof.
  intros cmd. unfold send_keys_try, try_except, bind, subprocess_run, ret, print.
  fold cmd. destruct (gateway env (trace st) cmd); reflexivity.
Qed.

(** [send_keys_to_window] with its effects written out. *)
Lemma send_keys_to_window_eq (env : Env) (self : TmuxOrchestrator)
    (session : string) (index : Z) (keys : string) (confirm : bool) (st : State) :
  send_keys_to_window env self session index keys confirm st =
    if safety_mode self && confirm then
      let st1 :=
        log (EvPrint ("SAFETY CHECK: About to send '" ++ keys ++ "' to "
                      ++ target session index)) st in
      match stdin st with
      | [] => (Raise EOFError, log (EvInput "Confirm? (yes/no): " None) st1)
      | response :: rest =>
          let st2 :=
            mkState rest
              (trace st1 ++ [EvInput "Confirm? (yes/no): " (Some response)]) in
          if (PyStr.lower response =? "yes")%string
          then send_keys_try env session index keys st2
          else (Return false, log (EvPrint "Operation cancelled") st2)
      end
    else send_keys_try env session index keys st.
Proof.
  unfold send_keys_to_window.
  destruct (safety_mode self && confirm); [|reflexivity].
  unfold bind, print, input, ret. cbn [stdin log trace].
  destruct (stdin st) as [|response rest]; [reflexivity|].
  destruct (PyStr.lower response =? "yes")%string; reflexivity.
Qed.

(** C4.  With [safety_mode] on and [confirm=True], a response that is not
    the word "yes" up to case (the empty line included) makes
    [send_keys_to_window] return [False]; all it did is print the check,
    read the line and print the cancellation, so the Gateway was never
    called.  A response that is the word up to case lets the dispatch go
    on: the [send-keys] call is issued, once. *)
Theorem safety_gate_requires_yes :
  forall (env : Env) (self : TmuxOrchestrator) (session : string) (index : Z)
         (keys response : string) (rest : list string) (tr : list Event),
    safety_mode self = true ->
    let st := mkState (response :: rest) tr in
    let res := send_keys_to_window env self session index keys true st in
    let asked :=
      [EvPrint ("SAFETY CHECK: About to send '" ++ keys ++ "' to "
                ++ target session index);
       EvInput "Confirm? (yes/no): " (Some response)] in
    (~ ci_equal response "yes" ->
       fst res = Return false /\
       new_events st (snd res) = (asked ++ [EvPrint "Operation cancelled"])%list /\
       runs (new_events st (snd res)) = [])
    /\
    (ci_equal response "yes" ->
       exists r,
         runs (new_events st (snd res)) = [EvRun (send_keys_cmd session index keys) r]
         /\ (fst res = Return true <-> exists out, r = Completed out)).
Proof.
  intros env self session index keys response rest tr Hs st res asked.
  set (st2 := mkState rest (tr ++ asked)).
  assert (E : res =
              if (PyStr.lower response =? "yes")%string
              then send_keys_try env session index keys st2
              else (Return false, log (EvPrint "Operation cancelled") st2)).
  { subst res st2 asked. rewrite send_keys_to_window_eq, Hs.
    cbn [andb stdin st log trace]. rewrite <- app_assoc. reflexivity. }
  clearbody res. subst res.
  destruct (PyStr.lower response =? "yes")%string eqn:Y.
  - split.
    + intros Hn. exfalso. apply Hn. now apply ci_equal_yes_eqb.
    + intros _. rewrite send_keys_try_spec. cbv zeta.
      destruct (gateway env (trace st2) (send_keys_cmd session index keys))
        as [out|rc].
      * eexists. split.
        -- erewrite new_events_extends
             by (cbn [snd log trace st st2]; rewrite <- app_assoc; reflexivity).
           reflexivity.
        -- split; [intros _; eexists; reflexivity|reflexivity].
      * eexists. split.
        -- erewrite new_events_extends
             by (cbn [snd log trace st st2]; repeat rewrite <- app_assoc;
                 reflexivity).
           reflexivity.
        -- split; [intros H; discriminate H|intros [out H]; discriminate H].
  - split.
    + intros _. split; [reflexivity|].
      erewrite new_events_extends
        by (cbn [snd log trace st st2]; rewrite <- app_assoc; reflexivity).
      split; reflexivity.
    + intros Hy. apply ci_equal_yes_eqb in Hy. rewrite Hy in Y. discriminate Y.
Qed.

(** The empty response is rejected and nothing reaches the Gateway. *)
Lemma safety_gate_requires_yes_witness :
  let env := StandIn.env_of [(send_keys_cmd "dev" 0 "ls", Completed "")] in
  let st := mkState [""] [] in
  safety_mode init = true /\
  fst (send_keys_to_window env init "dev" 0 "ls" true st) = Return false /\
  runs (new_events st (snd (send_keys_to_window env init "dev" 0 "ls" true st)))
    = [].
Proof.
  intros env st.
  split; [reflexivity|].
  destruct (safety_gate_requires_yes env init "dev" 0 "ls" "" [] [] eq_refl)
    as [Hno _].
  destruct Hno as (Hr & _ & Hc); [discriminate|].
  split; [exact Hr|exact Hc].
Defined.

(** [send_command_to_window] from the state in which the dispatch of the
    text starts. *)
Lemma send_command_dispatch_eq (env : Env) (session : string) (index : Z)
    (command : string) (st1 : State) :
  let text := send_keys_cmd session index command in
  let enter := send_keys_cmd session index "C-m" in
  let r1 := gateway env (trace st1) text in
  (sent <- send_keys_try env session index command ;;
   if negb sent then ret false
   else
     try_except
       (subprocess_run env enter ;;; ret true)
       (fun cmd rc =>
          print ("Error sending Enter key: " ++ cpe_str env cmd rc) ;;;
          ret false)) st1
  = match r1 with
    | NonZero rc =>
        (Return false,
         log (EvPrint ("Error sending keys: " ++ cpe_str env text rc))
             (log (EvRun text r1) st1))
    | Completed _ =>
        let r2 := gateway env (trace st1 ++ [EvRun text r1]) enter in
        match r2 with
        | Completed _ => (Return true, log (EvRun enter r2) (log (EvRun text r1) st1))
        | NonZero rc =>
            (Return false,
             log (EvPrint ("Error sending Enter key: " ++ cpe_str env enter rc))
                 (log (EvRun enter r2) (log (EvRun text r1) st1)))
        end
    end.
Proof.
  intros text enter r1. unfold bind at 1. rewrite send_keys_try_spec.
  fold text. fold r1. destruct r1 as [out|rc] eqn:E1; cbn [negb].
  - unfold try_except, bind, subprocess_run, ret, print. cbn [log trace].
    destruct (gateway env (trace st1 ++ [EvRun text (Completed out)]) enter);
      reflexivity.
  - reflexivity.
Qed.

(** C3, as the code has it.  When the safety gate turns the text down
    (confirmation required and the answer not "yes" up to case, or no
    answer at all), [send_command_to_window] makes no Gateway call and
    ends with [False], or with [EOFError] when there was no answer.
    Otherwise it calls the Gateway with the text; if that call fails it
    is the only call and the result is [False]; if it succeeds the [C-m]
    call follows, making exactly two, and the result is [True] exactly
    when the second call succeeded too.  [C-m] is never sent unless the
    text call succeeded. *)
Theorem send_command_gateway_calls :
  forall (env : Env) (self : TmuxOrchestrator) (session : string) (index : Z)
         (command : string) (confirm : bool) (st : State),
    let res := send_command_to_window env self session index command confirm st in
    let calls := runs (new_events st (snd res)) in
    let text := send_keys_cmd session index command in
    let enter := send_keys_cmd session index "C-m" in
    (gate_rejects self confirm st ->
       calls = [] /\ (fst res = Return false \/ fst res = Raise EOFError))
    /\
    (~ gate_rejects self confirm st ->
       let st1 := after_gate self session index command confirm st in
       let r1 := gateway env (trace st1) text in
       match r1 with
       | NonZero _ => calls = [EvRun text r1] /\ fst res = Return false
       | Completed _ =>
           let r2 := gateway env (trace st1 ++ [EvRun text r1]) enter in
           calls = [EvRun text r1; EvRun enter r2] /\
           fst res
           = Return match r2 with Completed _ => true | NonZero _ => false end
       end).
Proof.
  intros env self session index command confirm st res calls text enter.
  assert (D : forall st1 pre,
             trace st1 = (trace st ++ pre)%list -> runs pre = [] ->
             res =
               (sent <- send_keys_try env session index command ;;
                if negb sent then ret false
                else
                  try_except
                    (subprocess_run env enter ;;; ret true)
                    (fun cmd rc =>
                       print ("Error sending Enter key: "
                              ++ cpe_str env cmd rc) ;;;
                       ret false)) st1 ->
             let r1 := gateway env (trace st1) text in
             match r1 with
             | NonZero _ => calls = [EvRun text r1] /\ fst res = Return false
             | Completed _ =>
                 let r2 := gateway env (trace st1 ++ [EvRun text r1]) enter in
                 calls = [EvRun text r1; EvRun enter r2] /\
                 fst res
                 = Return match r2 with
                          | Completed _ => true
                          | NonZero _ => false
                          end
             end).
  { intros st1 pre Ht Hp E. subst calls. rewrite E.
    rewrite send_command_dispatch_eq. cbv zeta. fold text. fold enter.
    destruct (gateway env (trace st1) text) as [out|rc].
    - destruct (gateway env (trace st1 ++ [EvRun text (Completed out)]) enter)
        as [out'|rc'];
        (erewrite new_events_extends
           by (cbn [snd log trace]; rewrite Ht; repeat rewrite <- app_assoc;
               reflexivity));
        rewrite runs_app, Hp; split; reflexivity.
    - erewrite new_events_extends
        by (cbn [snd log trace]; rewrite Ht; repeat rewrite <- app_assoc;
            reflexivity).
      rewrite runs_app, Hp. split; reflexivity. }
  assert (E : res =
              bind (send_keys_to_window env self session index command confirm)
                   (fun sent =>
                      if negb sent then ret false
                      else
                        try_except
                          (subprocess_run env enter ;;; ret true)
                          (fun cmd rc =>
                             print ("Error sending Enter key: "
                                    ++ cpe_str env cmd rc) ;;;
                             ret false)) st) by reflexivity.
  unfold bind at 1 in E. rewrite send_keys_to_window_eq in E.
  unfold gate_rejects, after_gate.
  destruct (safety_mode self && confirm) eqn:G.
  - cbv zeta in E. destruct (stdin st) as [|response rest] eqn:Hin.
    + split.
      * intros _. subst calls. rewrite E. cbn [fst snd].
        erewrite new_events_extends
          by (cbn [log trace]; repeat rewrite <- app_assoc; reflexivity).
        split; [reflexivity|right; reflexivity].
      * intros Hn. exfalso. apply Hn. split; [reflexivity|].
        intros r rest0 Hd. discriminate Hd.
    + destruct (PyStr.lower response =? "yes")%string eqn:Y.
      * split.
        -- intros [_ Hr]. exfalso. apply (Hr response rest eq_refl).
           now apply ci_equal_yes_eqb.
        -- intros _.
           apply (D _ [EvPrint ("SAFETY CHECK: About to send '" ++ command
                                ++ "' to " ++ target session index);
                       EvInput "Confirm? (yes/no): " (Some response)]).
           ++ reflexivity.
           ++ reflexivity.
           ++ rewrite E. unfold bind. cbn [log trace].
              rewrite <- app_assoc. reflexivity.
      * split.
        -- intros _. subst calls. rewrite E. cbn [negb]. unfold ret.
           cbn [fst snd].
           erewrite new_events_extends
             by (cbn [log trace]; repeat rewrite <- app_assoc; reflexivity).
           split; [reflexivity|left; reflexivity].
        -- intros Hn. exfalso. apply Hn. split; [reflexivity|].
           intros r rest0 Hd. injection Hd as <- <-.
           rewrite <- ci_equal_yes_eqb, Y. discriminate.
  - split.
    + intros [Hg _]. discriminate Hg.
    + intros _. apply (D st []).
      * now rewrite app_nil_r.
      * reflexivity.
      * rewrite E. reflexivity.
Qed.

(** A "no" at the prompt: nothing is sent.  A "yes": the text, then
    [C-m]. *)
Lemma send_command_gateway_calls_witness :
  (gate_rejects init true (StandIn.start ["no"])
   /\ runs (new_events (StandIn.start ["no"])
              (snd (send_command_to_window env_accepts_keys init "dev" 0 "ls"
                      true (StandIn.start ["no"])))) = [])
  /\ (~ gate_rejects init true (StandIn.start ["yes"])
      /\ fst (send_command_to_window env_accepts_keys init "dev" 0 "ls" true
                (StandIn.start ["yes"])) = Return true
      /\ runs (new_events (StandIn.start ["yes"])
                 (snd (send_command_to_window env_accepts_keys init "dev" 0 "ls"
                         true (StandIn.start ["yes"]))))
         = [EvRun (send_keys_cmd "dev" 0 "ls") (Completed "");
            EvRun (send_keys_cmd "dev" 0 "C-m") (Completed "")]).
Proof.
  assert (Hno : gate_rejects init true (StandIn.start ["no"])).
  { split; [reflexivity|]. intros r rest H. injection H as <- <-.
    intros C. discriminate C. }
  assert (Hyes : ~ gate_rejects init true (StandIn.start ["yes"])).
  { intros [_ H]. apply (H "yes" [] eq_refl). reflexivity. }
  split.
  - split; [exact Hno|].
    exact (proj1 (proj1 (send_command_gateway_calls env_accepts_keys init
                           "dev" 0 "ls" true (StandIn.start ["no"])) Hno)).
  - split; [exact Hyes|].
    pose proof (proj2 (send_command_gateway_calls env_accepts_keys init
                         "dev" 0 "ls" true (StandIn.start ["yes"])) Hyes) as H.
    cbv zeta in H. destruct H as [Hc Hr]. split; [exact Hr|exact Hc].
Defined.

(** C3 as the specification states it fails when the gate turns the text
    down: the specification counts one Gateway call, the code makes none. *)
Lemma rejected_command_makes_no_gateway_call :
  let env :=
    StandIn.env_of [(send_keys_cmd "dev" 0 "ls", Completed "");
                    (send_keys_cmd "dev" 0 "C-m", Completed "")] in
  let st := StandIn.start ["no"] in
  let res := send_command_to_window env init "dev" 0 "ls" true st in
  fst res = Return false /\
  runs (new_events st (snd res)) = [] /\
  List.length (runs (new_events st (snd res))) <> 1%nat.
Proof.
  vm_compute. repeat split; discriminate.
Qed.

(** ** Loops and failed Gateway calls *)

Lemma for_each_invariant {X S : Type} (P : S -> Prop) (body : X -> S -> M S) :
  (forall x acc st acc' st',
      P acc -> body x acc st = (Return acc', st') -> P acc') ->
  forall xs acc st r st',
    P acc -> for_each xs body acc st = (Return r, st') -> P r.
Proof.
  intros Hbody xs. induction xs as [|x xs IH]; intros acc st r st' Hacc Hrun.
  - injection Hrun as <- _. exact Hacc.
  - simpl in Hrun. unfold bind in Hrun.
    destruct (body x acc st) as [[acc1|e] st1] eqn:E; [|discriminate Hrun].
    eapply IH; [|exact Hrun]. eapply Hbody; eassumption.
Qed.

Lemma failure_surfaces_ret {A : Type} (a : A) : failure_surfaces (ret a).
Proof.
  intros st. exists []. split; [now rewrite app_nil_r|discriminate].
Qed.

Lemma failure_surfaces_raise {A : Type} (e : PyExn) :
  failure_surfaces (@raise A e).
Proof.
  intros st. exists []. split; [now rewrite app_nil_r|discriminate].
Qed.

Lemma failure_surfaces_run (env : Env) (argv : list string) :
  failure_surfaces (subprocess_run env argv).
Proof.
  intros st. unfold subprocess_run.
  destruct (gateway env (trace st) argv) as [out|rc];
    eexists; (split; [reflexivity|]); cbn [existsb is_failed_run orb fst].
  - discriminate.
  - intros _. eauto.
Qed.

Lemma failure_surfaces_bind {A B : Type} (m : M A) (k : A -> M B) :
  failure_surfaces m -> (forall a, failure_surfaces (k a)) ->
  failure_surfaces (bind m k).
Proof.
  intros Hm Hk st. destruct (Hm st) as (evs1 & Ht1 & Hf1). unfold bind.
  destruct (m st) as [[a|e] st1]; cbn [fst snd] in *.
  - destruct (Hk a st1) as (evs2 & Ht2 & Hf2).
    exists (evs1 ++ evs2)%list. split.
    + rewrite Ht2, Ht1, app_assoc. reflexivity.
    + rewrite existsb_app. intros H. apply orb_true_iff in H.
      destruct H as [H|H]; [|exact (Hf2 H)].
      destruct (Hf1 H) as (c & rc & Hc). discriminate Hc.
  - exists evs1. split; [exact Ht1|]. intros H.
    destruct (Hf1 H) as (c & rc & Hc). injection Hc as ->. eauto.
Qed.

Lemma failure_surfaces_for_each {X S : Type} (body : X -> S -> M S) :
  (forall x acc, failure_surfaces (body x acc)) ->
  forall xs acc, failure_surfaces (for_each xs body acc).
Proof.
  intros Hbody xs. induction xs as [|x xs IH]; intros acc.
  - apply failure_surfaces_ret.
  - simpl. apply failure_surfaces_bind; auto.
Qed.

Lemma failure_surfaces_window_line (session line : string)
    (acc : list TmuxWindow) :
  failure_surfaces (window_line_body session line acc).
Proof.
  unfold window_line_body.
  destruct (PyStr.is_empty line); [apply failure_surfaces_ret|].
  destruct (PyStr.split ":" line) as [|a [|b [|c [|d l]]]];
    try apply failure_surfaces_raise.
  destruct (PyStr.int a);
    [apply failure_surfaces_ret|apply failure_surfaces_raise].
Qed.

Lemma failure_surfaces_session_line (env : Env) (line : string)
    (acc : list TmuxSession) :
  failure_surfaces (session_line_body env line acc).
Proof.
  unfold session_line_body.
  destruct (PyStr.is_empty line); [apply failure_surfaces_ret|].
  destruct (PyStr.split ":" line) as [|a [|b [|c l]]];
    try apply failure_surfaces_raise.
  apply failure_surfaces_bind; [apply failure_surfaces_run|intros out].
  apply failure_surfaces_bind; [|intros ws; apply failure_surfaces_ret].
  apply failure_surfaces_for_each. intros x acc0.
  apply failure_surfaces_window_line.
Qed.

Lemma failure_surfaces_sessions_try (env : Env) :
  failure_surfaces (get_tmux_sessions_try env).
Proof.
  unfold get_tmux_sessions_try.
  apply failure_surfaces_bind; [apply failure_surfaces_run|intros out].
  apply failure_surfaces_for_each. intros x acc.
  apply failure_surfaces_session_line.
Qed.

(** ** C2: one failed window-list query *)

(** C2, as the code has it.  When any Gateway query that
    [get_tmux_sessions] issues fails (the session-list query or the
    window-list query of any one session), the method returns the empty
    list: the sessions built before the failure are dropped with the
    failing one, and no exception leaves the method. *)
Theorem failed_query_empties_session_list :
  forall (env : Env) (st : State),
    existsb is_failed_run (new_events st (snd (get_tmux_sessions env st))) = true ->
    fst (get_tmux_sessions env st) = Return [].
Proof.
  intros env st. unfold get_tmux_sessions, try_except.
  destruct (failure_surfaces_sessions_try env st) as (evs & Ht & Hf).
  destruct (get_tmux_sessions_try env st) as [[sessions|e] st1];
    cbn [fst snd] in *.
  - rewrite (new_events_extends _ _ _ Ht). intros H.
    destruct (Hf H) as (c & rc & Hc). discriminate Hc.
  - destruct e; cbn [fst snd];
      try (rewrite (new_events_extends _ _ _ Ht); intros H;
           destruct (Hf H) as (c & rc & Hc); discriminate Hc).
    intros _. reflexivity.
Qed.

Lemma failed_query_empties_session_list_witness :
  existsb is_failed_run
    (new_events (StandIn.start [])
       (snd (get_tmux_sessions env_b_fails (StandIn.start [])))) = true
  /\ fst (get_tmux_sessions env_b_fails (StandIn.start [])) = Return [].
Proof.
  split; [reflexivity|].
  apply (failed_query_empties_session_list env_b_fails (StandIn.start [])).
  reflexivity.
Defined.

(** C2 as the specification states it fails: with sessions "a" and "b"
    and the window query of "b" failing, session "a" is not in the
    result. *)
Lemma failed_window_query_loses_other_sessions :
  let res := get_tmux_sessions env_b_fails (StandIn.start []) in
  fst res = Return [] /\
  fst res <> Return [mkTmuxSession "a" [mkTmuxWindow "a" 0 "main" true] true;
                     mkTmuxSession "b" [] false] /\
  runs (new_events (StandIn.start []) (snd res)) =
    [EvRun list_sessions_cmd (Completed ("a:1" ++ NL ++ "b:0" ++ NL));
     EvRun (list_windows_cmd "a") (Completed ("0:main:1" ++ NL));
     EvRun (list_windows_cmd "b") (NonZero 1)].
Proof.
  vm_compute. repeat split; discriminate.
Qed.

(** ** C8: windows carry the name of their session *)

Lemma window_line_body_session (session line : string)
    (acc acc' : list TmuxWindow) (st st' : State) :
  Forall (fun w => session_name w = session) acc ->
  window_line_body session line acc st = (Return acc', st') ->
  Forall (fun w => session_name w = session) acc'.
Proof.
  intros Hacc. unfold window_line_body, ret, raise.
  destruct (PyStr.is_empty line).
  - intros H. injection H as <- _. exact Hacc.
  - destruct (PyStr.split ":" line) as [|a [|b [|c [|d l]]]];
      try discriminate.
    destruct (PyStr.int a) as [i|]; [|discriminate].
    intros H. injection H as <- _.
    apply Forall_app. split; [exact Hacc|].
    constructor; [reflexivity|constructor].
Qed.

Lemma session_line_body_belong (env : Env) (line : string)
    (acc acc' : list TmuxSession) (st st' : State) :
  Forall windows_belong acc ->
  session_line_body env line acc st = (Return acc', st') ->
  Forall windows_belong acc'.
Proof.
  intros Hacc. unfold session_line_body.
  destruct (PyStr.is_empty line).
  - intros H. injection H as <- _. exact Hacc.
  - destruct (PyStr.split ":" line) as [|a [|b [|c l]]]; try discriminate.
    unfold bind at 1.
    destruct (subprocess_run env (list_windows_cmd a) st) as [[out|e] st1];
      [|discriminate].
    unfold bind.
    destruct (for_each (PyStr.split LF (PyStr.strip out))
                (window_line_body a) [] st1) as [[ws|e] st2] eqn:E;
      [|discriminate].
    intros H. injection H as <- _.
    apply Forall_app. split; [exact Hacc|].
    constructor; [|constructor].
    unfold windows_belong. cbn [windows name].
    eapply (for_each_invariant (fun ws => Forall (fun w => session_name w = a) ws));
      [|constructor|exact E].
    intros x acc0 st0 acc1 st3. apply window_line_body_session.
Qed.

(** C8.  In every list that [get_tmux_sessions] returns, each window of a
    session has that session's name as its [session_name]. *)
Theorem windows_carry_session_name :
  forall (env : Env) (st st' : State) (sessions : list TmuxSession),
    get_tmux_sessions env st = (Return sessions, st') ->
    Forall windows_belong sessions.
Proof.
  intros env st st' sessions. unfold get_tmux_sessions, try_except.
  destruct (get_tmux_sessions_try env st) as [[l|e] st1] eqn:E.
  - intros H. injection H as <- _.
    unfold get_tmux_sessions_try, bind in E.
    destruct (subprocess_run env list_sessions_cmd st) as [[out|e] st0];
      [|discriminate E].
    eapply (for_each_invariant (Forall windows_belong)); [|constructor|exact E].
    intros x acc st2 acc' st3. apply session_line_body_belong.
  - destruct e; try discriminate.
    unfold bind, print, ret. intros H. injection H as <- _. constructor.
Qed.

Lemma windows_carry_session_name_witness :
  fst (get_tmux_sessions env_two_sessions (StandIn.start [])) = Return two_sessions
  /\ Forall windows_belong two_sessions.
Proof.
  split; [reflexivity|].
  apply (windows_carry_session_name env_two_sessions (StandIn.start [])
           (snd (get_tmux_sessions env_two_sessions (StandIn.start [])))).
  reflexivity.
Defined.

(** ** C10: lines with too many fields *)

(** [split] yields one field more than there are separators. *)
Lemma split_length (sep : ascii) (s : string) :
  List.length (PyStr.split sep s) = S (count_char sep s).
Proof.
  induction s as [|a s IH]; [reflexivity|].
  simpl. destruct (Ascii.eqb a sep); simpl.
  - now rewrite IH.
  - destruct (PyStr.split sep s); simpl in *; [discriminate IH|exact IH].
Qed.

Lemma count_char_app (c : ascii) (a b : string) :
  count_char c (a ++ b) = (count_char c a + count_char c b)%nat.
Proof.
  induction a as [|x a IH]; simpl; [reflexivity|].
  rewrite IH. lia.
Qed.

(** A session line [name:0/1] whose name holds a colon has more than the
    two fields the unpacking expects. *)
Lemma colon_in_session_name_fields (session_name attached : string) :
  (0 < count_char ":" session_name)%nat ->
  (2 < List.length (PyStr.split ":" (session_name ++ ":" ++ attached)))%nat.
Proof.
  intros H. rewrite split_length, count_char_app. simpl. lia.
Qed.

Lemma several_fields_not_empty (sep : ascii) (s : string) :
  (1 < List.length (PyStr.split sep s))%nat -> PyStr.is_empty s = false.
Proof.
  destruct s; simpl; [lia|reflexivity].
Qed.

(** C10.  [get_tmux_sessions] is not total over what the Gateway may
    answer.  When the first session line has more than two fields, or the
    first window line of the first session has more than three (a name
    with a colon in it does that), the unpacking raises [ValueError] and
    the method lets it through: it returns neither a session list nor the
    empty list. *)
Theorem colon_in_name_raises_value_error :
  (forall (env : Env) (st : State) (out line : string) (rest : list string),
      gateway env (trace st) list_sessions_cmd = Completed out ->
      PyStr.split LF (PyStr.strip out) = line :: rest ->
      (2 < List.length (PyStr.split ":" line))%nat ->
      fst (get_tmux_sessions env st) = Raise ValueError)
  /\
  (forall (env : Env) (st : State) (out line session_name attached wout wline : string)
          (rest wrest : list string),
      gateway env (trace st) list_sessions_cmd = Completed out ->
      PyStr.split LF (PyStr.strip out) = line :: rest ->
      PyStr.split ":" line = [session_name; attached] ->
      gateway env (trace st ++ [EvRun list_sessions_cmd (Completed out)])
              (list_windows_cmd session_name) = Completed wout ->
      PyStr.split LF (PyStr.strip wout) = wline :: wrest ->
      (3 < List.length (PyStr.split ":" wline))%nat ->
      fst (get_tmux_sessions env st) = Raise ValueError).
Proof.
  split.
  - intros env st out line rest Hg Hl Hn.
    unfold get_tmux_sessions, try_except, get_tmux_sessions_try.
    unfold bind at 1. unfold subprocess_run at 1. rewrite Hg, Hl.
    cbn [for_each]. unfold bind at 1. unfold session_line_body at 1.
    rewrite (several_fields_not_empty ":" line) by lia.
    destruct (PyStr.split ":" line) as [|a [|b [|c l]]];
      cbn [List.length] in Hn; try lia.
    reflexivity.
  - intros env st out line sname att wout wline rest wrest Hg Hl Hp Hw Hwl Hn.
    unfold get_tmux_sessions, try_except, get_tmux_sessions_try.
    unfold bind at 1. unfold subprocess_run at 1. rewrite Hg, Hl.
    cbn [for_each]. unfold bind at 1. unfold session_line_body at 1.
    rewrite (several_fields_not_empty ":" line) by (rewrite Hp; simpl; lia).
    rewrite Hp. unfold bind at 1. unfold subprocess_run at 1.
    cbn [log trace]. rewrite Hw, Hwl.
    cbn [for_each]. unfold bind at 1 2. unfold window_line_body at 1.
    rewrite (several_fields_not_empty ":" wline) by lia.
    destruct (PyStr.split ":" wline) as [|a [|b [|c [|d l]]]];
      cbn [List.length] in Hn; try lia.
    reflexivity.
Qed.

Lemma colon_in_name_raises_value_error_witness :
  fst (get_tmux_sessions env_colon_session (StandIn.start [])) = Raise ValueError
  /\ fst (get_tmux_sessions env_colon_window (StandIn.start [])) = Raise ValueError.
Proof.
  split.
  - apply (proj1 colon_in_name_raises_value_error env_colon_session
             (StandIn.start []) ("my:work:1" ++ NL) "my:work:1" []).
    + reflexivity.
    + reflexivity.
    + vm_compute. lia.
  - apply (proj2 colon_in_name_raises_value_error env_colon_window
             (StandIn.start []) ("a:1" ++ NL) "a:1" "a" "1"
             ("0:logs:tail:1" ++ NL) "0:logs:tail:1" [] []).
    + reflexivity.
    + reflexivity.
    + reflexivity.
    + reflexivity.
    + reflexivity.
    + vm_compute. lia.
Defined.

(** ** C5: finding windows by name *)

Lemma starts_with_iff (p s : string) :
  PyStr.starts_with p s = true <-> exists post, s = p ++ post.
Proof.
  revert s. induction p as [|a p IH]; intros s.
  - simpl. split; [intros _; exists s; reflexivity|reflexivity].
  - destruct s as [|b s]; simpl.
    + split; [discriminate|intros [post H]; discriminate H].
    + rewrite andb_true_iff, Ascii.eqb_eq, IH. split.
      * intros [-> [post ->]]. exists post. reflexivity.
      * intros [post H]. injection H as -> ->. split; [reflexivity|eauto].
Qed.

Lemma contains_iff (needle hay : string) :
  PyStr.contains needle hay = true <->
  exists pre post, hay = pre ++ needle ++ post.
Proof.
  induction hay as [|c hay IH].
  - cbn [PyStr.contains]. rewrite orb_false_r, starts_with_iff. split.
    + intros [post H]. exists "", post. exact H.
    + intros (pre & post & H). destruct pre; [|discriminate H].
      exists post. exact H.
  - cbn [PyStr.contains]. rewrite orb_true_iff, starts_with_iff, IH. split.
    + intros [[post H]|(pre & post & H)].
      * exists "", post. exact H.
      * exists (String c pre), post. simpl. now rewrite H.
    + intros (pre & post & H). destruct pre as [|a pre].
      * left. exists post. exact H.
      * right. simpl in H. injection H as _ H. eauto.
Qed.

Lemma lower_app (a b : string) :
  PyStr.lower (a ++ b) = PyStr.lower a ++ PyStr.lower b.
Proof.
  induction a as [|c a IH]; simpl; [reflexivity|now rewrite IH].
Qed.

Lemma lower_split (s a b : string) :
  PyStr.lower s = a ++ b ->
  exists s1 s2, s = s1 ++ s2 /\ PyStr.lower s1 = a /\ PyStr.lower s2 = b.
Proof.
  revert s. induction a as [|x a IH]; intros s H.
  - exists "", s. auto.
  - destruct s as [|c s]; [discriminate H|].
    simpl in H. injection H as Hc H.
    destruct (IH s H) as (s1 & s2 & -> & H1 & H2).
    exists (String c s1), s2. simpl. rewrite Hc, H1. auto.
Qed.

(** The test of the source is the case-insensitive substring match. *)
Lemma window_matches_iff (pattern : string) (w : TmuxWindow) :
  window_matches pattern w = true <-> ci_substring pattern (window_name w).
Proof.
  unfold window_matches, ci_substring, ci_equal. rewrite contains_iff. split.
  - intros (pre & post & H).
    apply lower_split in H. destruct H as (s1 & s23 & E & H1 & H23).
    apply lower_split in H23. destruct H23 as (s2 & s3 & -> & H2 & H3).
    exists s1, s2, s3. auto.
  - intros (pre & mid & post & E & H).
    exists (PyStr.lower pre), (PyStr.lower post).
    rewrite E, !lower_app, H. reflexivity.
Qed.

Lemma empty_pattern_matches (w : TmuxWindow) : window_matches "" w = true.
Proof.
  unfold window_matches.
  destruct (PyStr.lower (window_name w)); reflexivity.
Qed.

Lemma find_in_session_spec (pattern : string) (s : TmuxSession)
    (acc : list (string * Z)) :
  find_in_session pattern acc s =
  (acc ++ map (address s) (filter (window_matches pattern) (windows s)))%list.
Proof.
  unfold find_in_session. revert acc.
  induction (windows s) as [|w ws IH]; intros acc; simpl.
  - now rewrite app_nil_r.
  - rewrite IH. destruct (window_matches pattern w); simpl.
    + now rewrite <- app_assoc.
    + reflexivity.
Qed.

Lemma find_fold_spec (pattern : string) (sessions : list TmuxSession)
    (acc : list (string * Z)) :
  fold_left (find_in_session pattern) sessions acc =
  (acc ++ matching_windows pattern sessions)%list.
Proof.
  revert acc. induction sessions as [|s ss IH]; intros acc; simpl.
  - now rewrite app_nil_r.
  - rewrite IH, find_in_session_spec, <- app_assoc. reflexivity.
Qed.

Lemma matching_windows_empty_pattern (sessions : list TmuxSession) :
  matching_windows "" sessions = all_windows sessions.
Proof.
  unfold matching_windows, all_windows.
  induction sessions as [|s ss IH]; simpl; [reflexivity|].
  rewrite IH. f_equal. f_equal.
  induction (windows s) as [|w ws IHw]; simpl; [reflexivity|].
  rewrite empty_pattern_matches, IHw. reflexivity.
Qed.

(** C5.  The empty result is not the only way out when no window
    matches.  With a window called "logs:tail" the window line has four
    fields, [get_tmux_sessions] raises [ValueError] and
    [find_window_by_name] lets it through, whatever the pattern: it
    returns no sequence at all.  The failure of a query, the case the
    handler does catch, gives the empty sequence. *)
Theorem find_window_by_name_raises_on_colon_name :
  let st := StandIn.start [] in
  fst (find_window_by_name env_colon_window "zzz" st) = Raise ValueError
  /\ runs (new_events st (snd (find_window_by_name env_colon_window "zzz" st)))
     = [EvRun list_sessions_cmd (Completed ("a:1" ++ NL));
        EvRun (list_windows_cmd "a") (Completed ("0:logs:tail:1" ++ NL))]
  /\ fst (find_window_by_name env_colon_window "" st) = Raise ValueError
  /\ fst (find_window_by_name env_b_fails "zzz" st) = Return [].
Proof.
  repeat split; reflexivity.
Qed.

(** ** Matching window names, on ASCII text *)

Lemma lower_char_ascii (c : ascii) :
  is_ascii_char c = true ->
  PyStr.lower_char c
  = if is_upper c then ascii_of_nat (nat_of_ascii c + 32) else c.
Proof.
  destruct c as [[] [] [] [] [] [] [] []]; vm_compute; intros H;
    try reflexivity; discriminate H.
Qed.

Lemma nat_of_ascii_inj (c d : ascii) :
  nat_of_ascii c = nat_of_ascii d -> c = d.
Proof.
  intros H. rewrite <- (ascii_nat_embedding c), <- (ascii_nat_embedding d).
  now rewrite H.
Qed.

Lemma is_upper_bounds (c : ascii) :
  is_upper c = true <-> (65 <= nat_of_ascii c <= 90)%nat.
Proof.
  unfold is_upper. rewrite andb_true_iff, !Nat.leb_le. tauto.
Qed.

Lemma is_upper_false (c : ascii) :
  is_upper c = false <-> (nat_of_ascii c < 65 \/ 90 < nat_of_ascii c)%nat.
Proof.
  unfold is_upper. rewrite andb_false_iff, !Nat.leb_gt. tauto.
Qed.

(** On ASCII characters, having the same lower-case form is being the
    same letter. *)
Lemma same_letter_lower (c d : ascii) :
  is_ascii_char c = true -> is_ascii_char d = true ->
  (PyStr.lower_char c = PyStr.lower_char d <-> same_letter c d).
Proof.
  intros Hc Hd. rewrite (lower_char_ascii c Hc), (lower_char_ascii d Hd).
  unfold is_ascii_char in Hc, Hd. apply Nat.ltb_lt in Hc, Hd.
  unfold same_letter.
  destruct (is_upper c) eqn:Uc; destruct (is_upper d) eqn:Ud;
    rewrite ?is_upper_bounds, ?is_upper_false in *.
  - split.
    + intros H. left. apply nat_of_ascii_inj.
      apply (f_equal nat_of_ascii) in H.
      rewrite !nat_ascii_embedding in H by lia. lia.
    + intros [->|[[_ H]|[_ H]]]; [reflexivity|lia|lia].
  - split.
    + intros H. right; left. split; [lia|].
      rewrite <- H. rewrite nat_ascii_embedding by lia. reflexivity.
    + intros [->|[[_ H]|[H _]]]; [lia| |lia].
      rewrite <- H. apply ascii_nat_embedding.
  - split.
    + intros H. right; right. split; [lia|].
      rewrite H. rewrite nat_ascii_embedding by lia. reflexivity.
    + intros [->|[[H _]|[_ H]]]; [lia|lia|].
      rewrite <- H. symmetry. apply ascii_nat_embedding.
  - split.
    + intros ->. now left.
    + intros [->|[[H _]|[H _]]]; [reflexivity|lia|lia].
Qed.

Lemma same_up_to_case_lower (a b : string) :
  is_ascii a = true -> is_ascii b = true ->
  (PyStr.lower a = PyStr.lower b <-> same_up_to_case a b).
Proof.
  revert b. induction a as [|c a IH]; intros [|d b] Ha Hb.
  - split; [constructor|reflexivity].
  - split; [discriminate|inversion 1].
  - split; [discriminate|inversion 1].
  - cbn [is_ascii] in Ha, Hb. apply andb_true_iff in Ha, Hb.
    destruct Ha as [Hc Ha], Hb as [Hd Hb]. cbn [PyStr.lower]. split.
    + intros H. injection H as H1 H2. constructor.
      * now apply same_letter_lower.
      * now apply IH.
    + inversion 1; subst. f_equal.
      * now apply same_letter_lower.
      * now apply IH.
Qed.

Lemma is_ascii_app (a b : string) :
  is_ascii (a ++ b) = is_ascii a && is_ascii b.
Proof.
  induction a as [|c a IH]; [reflexivity|].
  cbn [append is_ascii]. rewrite IH. apply andb_assoc.
Qed.

(** On ASCII text the test of the source says whether the pattern occurs
    in the name up to the case of A..Z. *)
Lemma window_matches_ascii (pattern : string) (w : TmuxWindow) :
  is_ascii pattern = true -> is_ascii (window_name w) = true ->
  (window_matches pattern w = true
   <-> occurs_up_to_case pattern (window_name w)).
Proof.
  intros Hp Hn. rewrite window_matches_iff.
  unfold ci_substring, occurs_up_to_case, ci_equal.
  split; intros (pre & mid & post & E & H); exists pre, mid, post;
    (split; [exact E|]);
    assert (Hm : is_ascii mid = true)
      by (rewrite E, !is_ascii_app in Hn;
          apply andb_true_iff in Hn; destruct Hn as [_ Hn];
          apply andb_true_iff in Hn; tauto).
  - now apply same_up_to_case_lower.
  - now apply same_up_to_case_lower.
Qed.

(** X17.  Take the session list [get_tmux_sessions] returns, and let the
    pattern and the window names be ASCII text.  Then
    [find_window_by_name] returns, in the order of the list, the
    [(session, index)] of exactly the windows in whose name the pattern
    occurs up to the case of the letters A..Z; with the empty pattern that
    is every window, and when the pattern occurs in no name it is the
    empty list. *)
Theorem find_window_by_name_matches :
  forall (env : Env) (pattern : string) (st st' : State)
         (sessions : list TmuxSession),
    get_tmux_sessions env st = (Return sessions, st') ->
    is_ascii pattern = true ->
    (forall s w, In s sessions -> In w (windows s) ->
                 is_ascii (window_name w) = true) ->
    find_window_by_name env pattern st
      = (Return (matching_windows pattern sessions), st')
    /\ (forall s w, In s sessions -> In w (windows s) ->
          (window_matches pattern w = true
           <-> occurs_up_to_case pattern (window_name w)))
    /\ (forall a,
          In a (matching_windows pattern sessions) <->
          exists s w, In s sessions /\ In w (windows s)
                      /\ occurs_up_to_case pattern (window_name w)
                      /\ a = address s w)
    /\ find_window_by_name env "" st = (Return (all_windows sessions), st')
    /\ ((forall s w, In s sessions -> In w (windows s) ->
                     ~ occurs_up_to_case pattern (window_name w)) ->
        find_window_by_name env pattern st = (Return [], st')).
Proof.
  intros env pattern st st' sessions Hs Hp Hn.
  assert (F : forall p, find_window_by_name env p st
                        = (Return (matching_windows p sessions), st')).
  { intros p. unfold find_window_by_name, bind. rewrite Hs. unfold ret.
    rewrite find_fold_spec. reflexivity. }
  assert (W : forall s w, In s sessions -> In w (windows s) ->
                (window_matches pattern w = true
                 <-> occurs_up_to_case pattern (window_name w))).
  { intros s w Hin Hw. apply window_matches_ascii; [exact Hp|].
    exact (Hn s w Hin Hw). }
  assert (I : forall a,
             In a (matching_windows pattern sessions) <->
             exists s w, In s sessions /\ In w (windows s)
                         /\ occurs_up_to_case pattern (window_name w)
                         /\ a = address s w).
  { intros a. unfold matching_windows. rewrite in_flat_map. split.
    - intros (s & Hin & Ha). apply in_map_iff in Ha.
      destruct Ha as (w & <- & Hw). apply filter_In in Hw.
      destruct Hw as [Hw Hm]. exists s, w.
      split; [exact Hin|]. split; [exact Hw|].
      split; [now apply (W s w Hin Hw)|reflexivity].
    - intros (s & w & Hin & Hw & Hm & ->). exists s. split; [exact Hin|].
      apply in_map. apply filter_In. split; [exact Hw|].
      now apply (W s w Hin Hw). }
  split; [apply F|]. split; [exact W|]. split; [exact I|].
  split; [rewrite F, matching_windows_empty_pattern; reflexivity|].
  intros Hnone. rewrite F.
  destruct (matching_windows pattern sessions) as [|a l] eqn:E; [reflexivity|].
  exfalso.
  assert (Ha : In a (a :: l)) by (left; reflexivity).
  apply I in Ha. destruct Ha as (s & w & Hin & Hw & Hm & _).
  exact (Hnone s w Hin Hw Hm).
Qed.

Lemma find_window_by_name_matches_witness :
  fst (find_window_by_name env_two_sessions "claude" (StandIn.start []))
    = Return [("a", 0)]
  /\ fst (find_window_by_name env_two_sessions "" (StandIn.start []))
     = Return [("a", 0); ("a", 1); ("b", 0)]
  /\ (window_matches "claude" (mkTmuxWindow "a" 0 "Claude-Agent" true) = true
      <-> occurs_up_to_case "claude" "Claude-Agent").
Proof.
  assert (Hn : forall s w, In s two_sessions -> In w (windows s) ->
                           is_ascii (window_name w) = true).
  { intros s w Hs Hw. simpl in Hs.
    destruct Hs as [<-|[<-|[]]]; simpl in Hw.
    - destruct Hw as [<-|[<-|[]]]; reflexivity.
    - destruct Hw as [<-|[]]. reflexivity. }
  destruct (find_window_by_name_matches env_two_sessions "claude"
              (StandIn.start [])
              (snd (get_tmux_sessions env_two_sessions (StandIn.start [])))
              two_sessions eq_refl eq_refl Hn) as (Hf & Hw & _ & He & _).
  split; [rewrite Hf; reflexivity|]. split; [rewrite He; reflexivity|].
  apply (Hw (mkTmuxSession "a"
               [mkTmuxWindow "a" 0 "Claude-Agent" true;
                mkTmuxWindow "a" 1 "shell" false] true)
            (mkTmuxWindow "a" 0 "Claude-Agent" true)).
  - left. reflexivity.
  - left. reflexivity.
Defined.

(** ** C6: one window's detail query fails *)

Lemma get_window_info_failed (env : Env) (self : TmuxOrchestrator)
    (session : string) (index : Z) (st : State) (rc : Z) :
  gateway env (trace st) (display_cmd session index) = NonZero rc ->
  get_window_info env self session index st =
    (Return (Some (ErrorInfo ("Could not get window info: "
                              ++ cpe_str env (display_cmd session index) rc))),
     log (EvRun (display_cmd session index) (NonZero rc)) st).
Proof.
  intros H. unfold get_window_info, try_except, bind, subprocess_run.
  rewrite H. reflexivity.
Qed.





(** [get_window_info] on an answer in the expected shape, with its effects
    written out. *)
Lemma get_window_info_answered_eq (env : Env) (self : TmuxOrchestrator)
    (session : string) (index : Z) (st : State)
    (out p0 p1 p2 p3 : string) (more : list string) (panes : Z) :
  gateway env (trace st) (display_cmd session index) = Completed out ->
  PyStr.split ":" (PyStr.strip out) = p0 :: p1 :: p2 :: p3 :: more ->
  PyStr.int p2 = Some panes ->
  let st1 := log (EvRun (display_cmd session index) (Completed out)) st in
  let capture :=
    capture_cmd session index (Z.min 50 (max_lines_capture self)) in
  let r := gateway env (trace st1) capture in
  get_window_info env self session index st =
    (Return
       (Some (Detail
          (mkWindowDetail p0 (p1 =? "1")%string panes p3
             match r with
             | Completed text => text
             | NonZero rc =>
                 "Error capturing window content: " ++ cpe_str env capture rc
             end))),
     log (EvRun capture r) st1).
Proof.
  intros Hg Hp Hi st1 capture r.
  unfold get_window_info, try_except.
  unfold bind at 1. unfold subprocess_run. rewrite Hg.
  rewrite (several_fields_not_empty ":" (PyStr.strip out))
    by (rewrite Hp; simpl; lia).
  rewrite Hp. unfold subscript, int_of. cbn [nth_error].
  unfold bind, ret. rewrite Hi.
  rewrite capture_window_content_eq. reflexivity.
Qed.

Lemma window_status_body_slot_at (env : Env) (self : TmuxOrchestrator)
    (s : TmuxSession) (w : TmuxWindow) (acc : list WindowData) (st : State) :
  detail_settles_at env (trace st) (name s) (window_index w) ->
  exists d evs st',
    window_status_body env self s w acc st = (Return (acc ++ [d])%list, st')
    /\ window_slot_at env self s w (trace st) d evs
    /\ trace st' = (trace st ++ evs)%list
    /\ stdin st' = stdin st.
Proof.
  unfold detail_settles_at, window_slot_at, window_status_body, bind.
  destruct (gateway env (trace st) (display_cmd (name s) (window_index w)))
    as [out|rc] eqn:G.
  - intros (p0 & p1 & p2 & p3 & more & panes & Hp & Hi).
    rewrite (get_window_info_answered_eq env self _ _ _ _ _ _ _ _ _ _ G Hp Hi).
    unfold ret. cbv zeta. eexists. eexists. eexists.
    split; [reflexivity|]. split; [|split].
    + cbn [wd_index wd_name wd_active wd_info].
      split; [reflexivity|]. split; [reflexivity|]. split; [reflexivity|].
      exists p0, p1, p2, p3, more, panes.
      split; [exact Hp|]. split; [exact Hi|]. split; reflexivity.
    + cbn [log trace]. rewrite <- app_assoc. reflexivity.
    + reflexivity.
  - intros _. rewrite (get_window_info_failed _ _ _ _ _ _ G). unfold ret.
    eexists. eexists. eexists. split; [reflexivity|]. split; [|split].
    + cbn [wd_index wd_name wd_active wd_info]. repeat split.
    + reflexivity.
    + reflexivity.
Qed.

Lemma window_loop_slots_at (env : Env) (self : TmuxOrchestrator)
    (s : TmuxSession) (ws : list TmuxWindow) :
  (forall tr w, In w ws ->
                detail_settles_at env tr (name s) (window_index w)) ->
  forall acc st,
  exists ds st',
    for_each ws (window_status_body env self s) acc st
      = (Return (acc ++ ds)%list, st')
    /\ window_slots_along env self s (trace st) ws ds (trace st')
    /\ stdin st' = stdin st.
Proof.
  induction ws as [|w ws IH]; intros Hall acc st.
  - exists [], st. split; [simpl; now rewrite app_nil_r|].
    split; [constructor|reflexivity].
  - destruct (window_status_body_slot_at env self s w acc st
                (Hall (trace st) w (or_introl eq_refl)))
      as (d & evs & st1 & E & Hd & Ht & Hi).
    destruct (IH (fun tr w' Hw' => Hall tr w' (or_intror Hw'))
                 (acc ++ [d])%list st1) as (ds & st2 & E2 & Hds & Hi2).
    exists (d :: ds), st2. split; [|split].
    + simpl. unfold bind. rewrite E, E2, <- app_assoc. reflexivity.
    + econstructor; [exact Hd|]. rewrite <- Ht. exact Hds.
    + rewrite Hi2. exact Hi.
Qed.

Lemma session_loop_slots_at (env : Env) (self : TmuxOrchestrator)
    (ss : list TmuxSession) :
  (forall tr s w, In s ss -> In w (windows s) ->
                  detail_settles_at env tr (name s) (window_index w)) ->
  forall acc st,
  exists ds st',
    for_each ss (session_status_body env self) acc st
      = (Return (acc ++ ds)%list, st')
    /\ session_slots_along env self (trace st) ss ds (trace st')
    /\ stdin st' = stdin st.
Proof.
  induction ss as [|s ss IH]; intros Hall acc st.
  - exists [], st. split; [simpl; now rewrite app_nil_r|].
    split; [constructor|reflexivity].
  - destruct (window_loop_slots_at env self s (windows s)
                (fun tr w Hw => Hall tr s w (or_introl eq_refl) Hw) [] st)
      as (wds & st1 & E & Hw & Hi).
    set (d := mkSessionData (name s) (attached s) wds).
    destruct (IH (fun tr s' w Hs' Hw' => Hall tr s' w (or_intror Hs') Hw')
                 (acc ++ [d])%list st1) as (ds & st2 & E2 & Hds & Hi2).
    exists (d :: ds), st2. split; [|split].
    + simpl. unfold bind at 1. unfold session_status_body at 1.
      unfold bind at 1. rewrite E. unfold ret at 1. cbn [app].
      fold d. rewrite E2, <- app_assoc. reflexivity.
    + econstructor; [reflexivity|reflexivity|exact Hw|exact Hds].
    + rewrite Hi2. exact Hi.
Qed.

(** C6.  Take the session list [get_tmux_sessions] returns, and let every
    detail query of its windows, whenever it is asked, either fail or be
    answered in the expected shape.  Then [get_all_windows_status] returns
    a status with the time stamp and one slot per session and per window,
    in order, assembled window after window: where the detail query fails
    the slot holds the error dictionary with the text of that failure and
    the assembly goes on; where it is answered the slot holds the name,
    active flag, pane count and layout of the answer and the captured pane
    text.  The effects are exactly these queries and captures, and
    standard input is left alone. *)
Theorem window_failure_is_recorded_in_its_slot :
  forall (env : Env) (self : TmuxOrchestrator) (st st1 : State)
         (sessions : list TmuxSession),
    get_tmux_sessions env st = (Return sessions, st1) ->
    (forall tr s w, In s sessions -> In w (windows s) ->
                    detail_settles_at env tr (name s) (window_index w)) ->
    exists status st2,
      get_all_windows_status env self st = (Return status, st2)
      /\ st_timestamp status = now_iso env
      /\ session_slots_along env self (trace st1) sessions
                             (st_sessions status) (trace st2)
      /\ stdin st2 = stdin st1.
Proof.
  intros env self st st1 sessions Hs Hall.
  destruct (session_loop_slots_at env self sessions Hall [] st1)
    as (ds & st2 & E & Hds & Hi).
  exists (mkStatus (now_iso env) ds), st2.
  split; [|split; [reflexivity|split; [exact Hds|exact Hi]]].
  unfold get_all_windows_status. unfold bind at 1. rewrite Hs.
  unfold bind. rewrite E. reflexivity.
Qed.

Lemma window_failure_is_recorded_in_its_slot_witness :
  fst (get_tmux_sessions env_one_detail_fails (StandIn.start []))
    = Return two_sessions
  /\ exists status st2,
       get_all_windows_status env_one_detail_fails init (StandIn.start [])
         = (Return status, st2)
       /\ st_timestamp status = now_iso env_one_detail_fails
       /\ session_slots_along env_one_detail_fails init
            (trace (snd (get_tmux_sessions env_one_detail_fails
                           (StandIn.start []))))
            two_sessions (st_sessions status) (trace st2)
       /\ stdin st2 = [].
Proof.
  split; [reflexivity|].
  apply (window_failure_is_recorded_in_its_slot env_one_detail_fails init
           (StandIn.start [])
           (snd (get_tmux_sessions env_one_detail_fails (StandIn.start [])))
           two_sessions).
  - reflexivity.
  - intros tr s w Hs Hw. simpl in Hs.
    destruct Hs as [<-|[<-|[]]]; simpl in Hw.
    + destruct Hw as [<-|[<-|[]]].
      * do 6 eexists. split; reflexivity.
      * exact I.
    + destruct Hw as [<-|[]].
      do 6 eexists. split; reflexivity.
Defined.

(** The status of that system: the slot of window 1 of "a" is the error
    dictionary, the other two slots are filled. *)
Example one_detail_fails_status :
  fst (get_all_windows_status env_one_detail_fails init (StandIn.start [])) =
  Return
    (mkStatus "2024-01-01T00:00:00"
       [mkSessionData "a" true
          [mkWindowData 0 "Claude-Agent" true
             (Some (Detail (mkWindowDetail "Claude-Agent" true 1
                              "b25d,80x24,0,0,0" ("ready" ++ NL))));
           mkWindowData 1 "shell" false
             (Some (ErrorInfo "Could not get window info: exit status 1"))];
        mkSessionData "b" false
          [mkWindowData 0 "main" true
             (Some (Detail (mkWindowDetail "main" true 1
                              "b25e,80x24,0,0,2" ("$ " ++ NL))))]]).
Proof.
  reflexivity.
Qed.

(** ** C7: the digest of a window *)

Lemma append_assoc (a b c : string) : (a ++ b) ++ c = a ++ (b ++ c).
Proof.
  induction a as [|x a IH]; simpl; [reflexivity|now rewrite IH].
Qed.

Lemma append_empty_r (a : string) : a ++ "" = a.
Proof.
  induction a as [|x a IH]; simpl; [reflexivity|now rewrite IH].
Qed.

(** The loop over the recent lines appends one marked line per non-blank
    line, in order. *)
Lemma render_lines_spec (lines : list string) (snapshot : string) :
  render_lines lines snapshot =
  snapshot ++ join_all (map digest_line (filter non_blank lines)).
Proof.
  unfold render_lines. revert snapshot.
  induction lines as [|l lines IH]; intros snapshot; simpl.
  - now rewrite append_empty_r.
  - rewrite IH. fold (non_blank l). destruct (non_blank l); [|reflexivity].
    simpl. rewrite append_assoc. reflexivity.
Qed.

Lemma render_four_lines (snapshot : string) :
  render_lines (PyStr.tail_lines 10 (PyStr.split LF four_lines)) snapshot =
  snapshot ++ ("    | line1" ++ NL ++ "    | line2" ++ NL).
Proof.
  rewrite render_lines_spec. f_equal.
Qed.

(** C7.  The example content splits into the four lines "", "line1",
    "", "line2".  For a window with that content the digest has, after
    the window's heading, the line [Recent output:] and exactly the two
    lines [| line1] and [| line2], each behind the marker; the blank lines
    leave no trace.  The last conjunct is the whole digest of a system
    with that one window. *)
Theorem digest_skips_blank_lines :
  PyStr.split LF four_lines = [""; "line1"; ""; "line2"]
  /\ (forall (idx : Z) (nm : string) (act : bool) (dn : string) (da : bool)
             (dp : Z) (dl snapshot : string) (st : State),
        render_window
          (mkWindowData idx nm act
             (Some (Detail (mkWindowDetail dn da dp dl four_lines))))
          snapshot st
        = (Return
             (snapshot ++ "  Window " ++ PyStr.of_Z idx ++ ": " ++ nm
              ++ (if act then " (ACTIVE)" else "") ++ NL
              ++ "    Recent output:" ++ NL
              ++ "    | line1" ++ NL
              ++ "    | line2" ++ NL
              ++ NL),
           st))
  /\ fst (create_monitoring_snapshot env_four_lines init (StandIn.start []))
     = Return
         ("Tmux Monitoring Snapshot - 2024-01-01T00:00:00" ++ NL
          ++ PyStr.repeat "=" 50 ++ NL ++ NL
          ++ "Session: a (ATTACHED)" ++ NL
          ++ PyStr.repeat "-" 30 ++ NL
          ++ "  Window 0: main (ACTIVE)" ++ NL
          ++ "    Recent output:" ++ NL
          ++ "    | line1" ++ NL
          ++ "    | line2" ++ NL
          ++ NL).
Proof.
  split; [reflexivity|]. split; [|reflexivity].
  intros idx nm act dn da dp dl snapshot st.
  unfold render_window, bind, ret.
  cbn [wd_index wd_name wd_active wd_info d_content].
  rewrite render_four_lines.
  destruct act; repeat rewrite append_assoc; reflexivity.
Qed.

(** ** C9: an empty answer to the detail query *)

Lemma get_window_info_blank (env : Env) (self : TmuxOrchestrator)
    (session : string) (index : Z) (st : State) (out : string) :
  gateway env (trace st) (display_cmd session index) = Completed out ->
  PyStr.strip out = "" ->
  get_window_info env self session index st =
    (Return None, log (EvRun (display_cmd session index) (Completed out)) st).
Proof.
  intros Hg Hs. unfold get_window_info, try_except, bind, subprocess_run.
  rewrite Hg, Hs. reflexivity.
Qed.

Lemma render_window_cases (window : WindowData) (snapshot : string)
    (st : State) :
  (unanswered window = true
   /\ render_window window snapshot st = (Raise TypeError, st))
  \/ (unanswered window = false
      /\ exists text, render_window window snapshot st = (Return text, st)).
Proof.
  unfold unanswered, render_window, bind, ret, raise.
  destruct (wd_info window) as [[d|msg]|].
  - right. split; [reflexivity|]. eexists. reflexivity.
  - right. split; [reflexivity|]. eexists. reflexivity.
  - left. split; reflexivity.
Qed.

Lemma render_windows_cases (ws : list WindowData) (snapshot : string)
    (st : State) :
  (existsb unanswered ws = true
   /\ for_each ws render_window snapshot st = (Raise TypeError, st))
  \/ (existsb unanswered ws = false
      /\ exists text, for_each ws render_window snapshot st = (Return text, st)).
Proof.
  revert snapshot. induction ws as [|w ws IH]; intros snapshot.
  - right. split; [reflexivity|]. eexists. reflexivity.
  - cbn [existsb for_each]. unfold bind.
    destruct (render_window_cases w snapshot st) as [[Hu E]|[Hu [text E]]];
      rewrite Hu, E; cbn [orb].
    + left. split; reflexivity.
    + apply IH.
Qed.

Lemma render_sessions_cases (ss : list SessionData) (snapshot : string)
    (st : State) :
  (existsb (fun s => existsb unanswered (sd_windows s)) ss = true
   /\ for_each ss render_session snapshot st = (Raise TypeError, st))
  \/ (existsb (fun s => existsb unanswered (sd_windows s)) ss = false
      /\ exists text, for_each ss render_session snapshot st = (Return text, st)).
Proof.
  revert snapshot. induction ss as [|s ss IH]; intros snapshot.
  - right. split; [reflexivity|]. eexists. reflexivity.
  - cbn [existsb for_each]. unfold bind. unfold render_session at 1 3.
    match goal with |- context [for_each (sd_windows s) render_window ?t st] =>
      destruct (render_windows_cases (sd_windows s) t st)
        as [[Hu E]|[Hu [text E]]]; rewrite Hu, E; cbn [orb]
    end.
    + left. split; reflexivity.
    + apply IH.
Qed.

(** C9.  When the detail query succeeds with nothing but whitespace on
    its output, [get_window_info] returns [None]: neither the detail
    dictionary nor the error dictionary.  Rendering a status in which a
    window slot holds [None] raises [TypeError] at the membership test, and
    so does [create_monitoring_snapshot] whenever the status it has
    gathered holds such a slot. *)
Theorem blank_detail_gives_none_then_type_error :
  (forall (env : Env) (self : TmuxOrchestrator) (session : string) (index : Z)
          (st : State) (out : string),
      gateway env (trace st) (display_cmd session index) = Completed out ->
      PyStr.strip out = "" ->
      get_window_info env self session index st =
        (Return None, log (EvRun (display_cmd session index) (Completed out)) st))
  /\ (forall (status : Status) (st : State),
        has_unanswered status = true ->
        render_status status st = (Raise TypeError, st))
  /\ (forall (env : Env) (self : TmuxOrchestrator) (st st1 : State)
             (status : Status),
        get_all_windows_status env self st = (Return status, st1) ->
        has_unanswered status = true ->
        create_monitoring_snapshot env self st = (Raise TypeError, st1)).
Proof.
  assert (R : forall status st, has_unanswered status = true ->
                                render_status status st = (Raise TypeError, st)).
  { intros status st H. unfold render_status, has_unanswered in *.
    match goal with |- for_each _ _ ?t _ = _ =>
      destruct (render_sessions_cases (st_sessions status) t st)
        as [[_ E]|[Hu _]]
    end.
    - exact E.
    - rewrite Hu in H. discriminate H. }
  split; [exact get_window_info_blank|]. split; [exact R|].
  intros env self st st1 status Hs Hu.
  unfold create_monitoring_snapshot, bind. rewrite Hs. apply R, Hu.
Qed.

Lemma blank_detail_gives_none_then_type_error_witness :
  fst (get_window_info env_blank_detail init "a" 0 (StandIn.start []))
    = Return None
  /\ fst (create_monitoring_snapshot env_blank_detail init (StandIn.start []))
     = Raise TypeError.
Proof.
  destruct blank_detail_gives_none_then_type_error as (Hn & _ & Hs).
  split.
  - rewrite (Hn env_blank_detail init "a" 0 (StandIn.start []) ("  " ++ NL));
      reflexivity.
  - rewrite (Hs env_blank_detail init (StandIn.start [])
               (snd (get_all_windows_status env_blank_detail init
                       (StandIn.start [])))
               (mkStatus "2024-01-01T00:00:00"
                  [mkSessionData "a" true [mkWindowData 0 "main" true None]]));
      reflexivity.
Defined.

(** ** The read path only reads *)

Lemma read_only_ret {A : Type} (a : A) : read_only (ret a).
Proof.
  intros st. exists []. cbn. now rewrite app_nil_r.
Qed.

Lemma read_only_raise {A : Type} (e : PyExn) : read_only (@raise A e).
Proof.
  intros st. exists []. cbn. now rewrite app_nil_r.
Qed.

Lemma read_only_print (text : string) : read_only (print text).
Proof.
  intros st. exists [EvPrint text]. cbn. auto.
Qed.

Lemma read_only_run (env : Env) (argv : list string) :
  is_read_argv argv = true -> read_only (subprocess_run env argv).
Proof.
  intros H st. unfold subprocess_run.
  destruct (gateway env (trace st) argv) as [out|rc];
    eexists; (split; [reflexivity|]); (split; [reflexivity|]);
    cbn [forallb is_read_event]; rewrite H; reflexivity.
Qed.

Lemma read_only_bind {A B : Type} (m : M A) (k : A -> M B) :
  read_only m -> (forall a, read_only (k a)) -> read_only (bind m k).
Proof.
  intros Hm Hk st. destruct (Hm st) as (evs1 & Ht1 & Hi1 & Hr1). unfold bind.
  destruct (m st) as [[a|e] st1]; cbn [fst snd] in *.
  - destruct (Hk a st1) as (evs2 & Ht2 & Hi2 & Hr2).
    exists (evs1 ++ evs2)%list. split; [|split].
    + rewrite Ht2, Ht1, app_assoc. reflexivity.
    + rewrite Hi2. exact Hi1.
    + rewrite forallb_app, Hr1, Hr2. reflexivity.
  - exists evs1. auto.
Qed.

Lemma read_only_try_except {A : Type} (m : M A) (h : list string -> Z -> M A) :
  read_only m -> (forall cmd rc, read_only (h cmd rc)) ->
  read_only (try_except m h).
Proof.
  intros Hm Hh st. destruct (Hm st) as (evs1 & Ht1 & Hi1 & Hr1).
  unfold try_except.
  destruct (m st) as [[a|e] st1]; cbn [fst snd] in *.
  - exists evs1. auto.
  - destruct e; try solve [exists evs1; cbn [fst snd]; auto].
    destruct (Hh cmd returncode st1) as (evs2 & Ht2 & Hi2 & Hr2).
    exists (evs1 ++ evs2)%list. split; [|split].
    + rewrite Ht2, Ht1, app_assoc. reflexivity.
    + rewrite Hi2. exact Hi1.
    + rewrite forallb_app, Hr1, Hr2. reflexivity.
Qed.

Lemma read_only_for_each {X S : Type} (body : X -> S -> M S) :
  (forall x acc, read_only (body x acc)) ->
  forall xs acc, read_only (for_each xs body acc).
Proof.
  intros Hbody xs. induction xs as [|x xs IH]; intros acc.
  - apply read_only_ret.
  - simpl. apply read_only_bind; auto.
Qed.

Lemma read_only_window_line (session line : string) (acc : list TmuxWindow) :
  read_only (window_line_body session line acc).
Proof.
  unfold window_line_body.
  destruct (PyStr.is_empty line); [apply read_only_ret|].
  destruct (PyStr.split ":" line) as [|a [|b [|c [|d l]]]];
    try apply read_only_raise.
  destruct (PyStr.int a); [apply read_only_ret|apply read_only_raise].
Qed.

Lemma read_only_session_line (env : Env) (line : string)
    (acc : list TmuxSession) :
  read_only (session_line_body env line acc).
Proof.
  unfold session_line_body.
  destruct (PyStr.is_empty line); [apply read_only_ret|].
  destruct (PyStr.split ":" line) as [|a [|b [|c l]]];
    try apply read_only_raise.
  apply read_only_bind; [apply read_only_run; reflexivity|intros out].
  apply read_only_bind; [|intros ws; apply read_only_ret].
  apply read_only_for_each. intros x acc0. apply read_only_window_line.
Qed.

Lemma read_only_get_tmux_sessions (env : Env) :
  read_only (get_tmux_sessions env).
Proof.
  unfold get_tmux_sessions, get_tmux_sessions_try.
  apply read_only_try_except.
  - apply read_only_bind; [apply read_only_run; reflexivity|intros out].
    apply read_only_for_each. intros x acc. apply read_only_session_line.
  - intros cmd rc.
    apply read_only_bind; [apply read_only_print|intros _; apply read_only_ret].
Qed.

Lemma read_only_capture (env : Env) (self : TmuxOrchestrator)
    (session : string) (index n : Z) :
  read_only (capture_window_content env self session index n).
Proof.
  unfold capture_window_content. apply read_only_try_except.
  - apply read_only_run. reflexivity.
  - intros cmd rc. apply read_only_ret.
Qed.

Lemma read_only_subscript (parts : list string) (i : nat) :
  read_only (subscript parts i).
Proof.
  unfold subscript.
  destruct (nth_error parts i); [apply read_only_ret|apply read_only_raise].
Qed.

Lemma read_only_get_window_info (env : Env) (self : TmuxOrchestrator)
    (session : string) (index : Z) :
  read_only (get_window_info env self session index).
Proof.
  unfold get_window_info. apply read_only_try_except.
  - apply read_only_bind; [apply read_only_run; reflexivity|intros out].
    destruct (PyStr.is_empty (PyStr.strip out)); [apply read_only_ret|].
    apply read_only_bind; [apply read_only_subscript|intros p0].
    apply read_only_bind; [apply read_only_subscript|intros p1].
    apply read_only_bind; [apply read_only_subscript|intros p2].
    apply read_only_bind.
    { unfold int_of.
      destruct (PyStr.int p2); [apply read_only_ret|apply read_only_raise]. }
    intros panes.
    apply read_only_bind; [apply read_only_subscript|intros p3].
    apply read_only_bind; [apply read_only_capture|intros content].
    apply read_only_ret.
  - intros cmd rc. apply read_only_ret.
Qed.

Lemma read_only_get_all_windows_status (env : Env) (self : TmuxOrchestrator) :
  read_only (get_all_windows_status env self).
Proof.
  unfold get_all_windows_status.
  apply read_only_bind; [apply read_only_get_tmux_sessions|intros sessions].
  apply read_only_bind; [|intros ds; apply read_only_ret].
  apply read_only_for_each. intros s acc. unfold session_status_body.
  apply read_only_bind; [|intros ws; apply read_only_ret].
  apply read_only_for_each. intros w acc0. unfold window_status_body.
  apply read_only_bind; [apply read_only_get_window_info|intros info].
  apply read_only_ret.
Qed.

Lemma read_only_render_window (window : WindowData) (snapshot : string) :
  read_only (render_window window snapshot).
Proof.
  unfold render_window.
  apply read_only_bind; [|intros text; apply read_only_ret].
  destruct (wd_info window) as [[d|msg]|];
    [apply read_only_ret|apply read_only_ret|apply read_only_raise].
Qed.

Lemma read_only_render_status (status : Status) :
  read_only (render_status status).
Proof.
  unfold render_status. apply read_only_for_each. intros s acc.
  unfold render_session. apply read_only_for_each. intros w acc0.
  apply read_only_render_window.
Qed.

(** X1.  The read operations ([get_tmux_sessions], [find_window_by_name],
    [capture_window_content], [get_window_info], [get_all_windows_status],
    [create_monitoring_snapshot]) never take a line from standard input,
    and every command they run is one of [tmux list-sessions],
    [list-windows], [display-message] and [capture-pane]: nothing is ever
    sent to a window. *)
Theorem read_path_only_reads :
  forall (env : Env) (self : TmuxOrchestrator),
    read_only (get_tmux_sessions env)
    /\ (forall pattern, read_only (find_window_by_name env pattern))
    /\ (forall session index n,
          read_only (capture_window_content env self session index n))
    /\ (forall session index, read_only (get_window_info env self session index))
    /\ read_only (get_all_windows_status env self)
    /\ read_only (create_monitoring_snapshot env self).
Proof.
  intros env self.
  split; [apply read_only_get_tmux_sessions|].
  split.
  { intros pattern. unfold find_window_by_name.
    apply read_only_bind; [apply read_only_get_tmux_sessions|].
    intros sessions. apply read_only_ret. }
  split; [intros; apply read_only_capture|].
  split; [intros; apply read_only_get_window_info|].
  split; [apply read_only_get_all_windows_status|].
  unfold create_monitoring_snapshot.
  apply read_only_bind; [apply read_only_get_all_windows_status|].
  intros status. apply read_only_render_status.
Qed.

(** ** Gateway failures do not leave the read path *)

















(** ** A system without sessions *)

Lemma get_tmux_sessions_no_server (env : Env) (st : State) (rc : Z) :
  gateway env (trace st) list_sessions_cmd = NonZero rc ->
  get_tmux_sessions env st =
    (Return [],
     log (EvPrint ("Error getting tmux sessions: "
                   ++ cpe_str env list_sessions_cmd rc))
         (log (EvRun list_sessions_cmd (NonZero rc)) st)).
Proof.
  intros H.
  unfold get_tmux_sessions, try_except, get_tmux_sessions_try, bind,
    subprocess_run.
  rewrite H. reflexivity.
Qed.

(** X3.  When the session-list query fails (no server is running),
    [get_tmux_sessions] makes that one call, prints one message and
    returns the empty list; [find_window_by_name] finds nothing, the
    status has no session and the digest is its two header lines.  None
    of them raises, and none makes a second call. *)
Theorem no_server_is_an_empty_system :
  forall (env : Env) (self : TmuxOrchestrator) (st : State) (rc : Z),
    gateway env (trace st) list_sessions_cmd = NonZero rc ->
    let st' :=
      log (EvPrint ("Error getting tmux sessions: "
                    ++ cpe_str env list_sessions_cmd rc))
          (log (EvRun list_sessions_cmd (NonZero rc)) st) in
    get_tmux_sessions env st = (Return [], st')
    /\ (forall pattern, find_window_by_name env pattern st = (Return [], st'))
    /\ get_all_windows_status env self st
       = (Return (mkStatus (now_iso env) []), st')
    /\ create_monitoring_snapshot env self st
       = (Return (digest_header (now_iso env)), st').
Proof.
  intros env self st rc H st'.
  pose proof (get_tmux_sessions_no_server env st rc H) as E. fold st' in E.
  assert (S : get_all_windows_status env self st
              = (Return (mkStatus (now_iso env) []), st')).
  { unfold get_all_windows_status, bind. rewrite E. reflexivity. }
  split; [exact E|]. split; [|split; [exact S|]].
  - intros pattern. unfold find_window_by_name, bind. rewrite E. reflexivity.
  - unfold create_monitoring_snapshot, bind. rewrite S. reflexivity.
Qed.

Lemma no_server_is_an_empty_system_witness :
  gateway env_no_server [] list_sessions_cmd = NonZero 1
  /\ fst (get_tmux_sessions env_no_server (StandIn.start [])) = Return []
  /\ fst (create_monitoring_snapshot env_no_server init (StandIn.start []))
     = Return (digest_header "2024-01-01T00:00:00").
Proof.
  split; [reflexivity|].
  destruct (no_server_is_an_empty_system env_no_server init (StandIn.start [])
              1 eq_refl) as (Hs & _ & _ & Hd).
  split.
  - rewrite Hs. reflexivity.
  - rewrite Hd. reflexivity.
Defined.

(** X4.  When the session-list query succeeds with nothing but
    whitespace, [get_tmux_sessions] returns the empty list after that one
    call: the single empty line is skipped, no window list is asked for
    and nothing is printed. *)
Theorem blank_session_list_is_no_session :
  forall (env : Env) (st : State) (out : string),
    gateway env (trace st) list_sessions_cmd = Completed out ->
    PyStr.strip out = "" ->
    get_tmux_sessions env st
    = (Return [], log (EvRun list_sessions_cmd (Completed out)) st).
Proof.
  intros env st out Hg Hs.
  unfold get_tmux_sessions, try_except, get_tmux_sessions_try, bind,
    subprocess_run.
  rewrite Hg, Hs. reflexivity.
Qed.

Lemma blank_session_list_is_no_session_witness :
  PyStr.strip NL = ""
  /\ get_tmux_sessions env_no_sessions (StandIn.start [])
     = (Return [],
        log (EvRun list_sessions_cmd (Completed NL)) (StandIn.start [])).
Proof.
  split; [reflexivity|].
  apply (blank_session_list_is_no_session env_no_sessions (StandIn.start []) NL);
    reflexivity.
Defined.

(** ** The session list mirrors the Gateway's answers *)

Lemma cpe_is_logged_ret {A : Type} (a : A) : cpe_is_logged (ret a).
Proof.
  intros st. exists []. split; [cbn; now rewrite app_nil_r|].
  intros e He. discriminate He.
Qed.

Lemma cpe_is_logged_raise {A : Type} (e : PyExn) :
  ~ is_called_process_error e -> cpe_is_logged (@raise A e).
Proof.
  intros Hn st. exists []. split; [cbn; now rewrite app_nil_r|].
  intros e' He Hc. injection He as <-. contradiction.
Qed.

Lemma cpe_is_logged_run (env : Env) (argv : list string) :
  cpe_is_logged (subprocess_run env argv).
Proof.
  intros st. unfold subprocess_run.
  destruct (gateway env (trace st) argv) as [out|rc];
    eexists; (split; [reflexivity|]); intros e He Hc.
  - discriminate He.
  - reflexivity.
Qed.

Lemma cpe_is_logged_bind {A B : Type} (m : M A) (k : A -> M B) :
  cpe_is_logged m -> (forall a, cpe_is_logged (k a)) ->
  cpe_is_logged (bind m k).
Proof.
  intros Hm Hk st. destruct (Hm st) as (evs1 & Ht1 & Hf1). unfold bind.
  destruct (m st) as [[a|e] st1]; cbn [fst snd] in *.
  - destruct (Hk a st1) as (evs2 & Ht2 & Hf2).
    exists (evs1 ++ evs2)%list. split.
    + rewrite Ht2, Ht1, app_assoc. reflexivity.
    + intros e He Hc. rewrite existsb_app, (Hf2 e He Hc).
      apply orb_true_r.
  - exists evs1. split; [exact Ht1|].
    intros e' He Hc. injection He as <-. now apply (Hf1 e).
Qed.

Lemma cpe_is_logged_for_each {X S : Type} (body : X -> S -> M S) :
  (forall x acc, cpe_is_logged (body x acc)) ->
  forall xs acc, cpe_is_logged (for_each xs body acc).
Proof.
  intros Hbody xs. induction xs as [|x xs IH]; intros acc.
  - apply cpe_is_logged_ret.
  - simpl. apply cpe_is_logged_bind; auto.
Qed.

Lemma value_error_is_no_cpe : ~ is_called_process_error ValueError.
Proof.
  intros (c & rc & H). discriminate H.
Qed.

Lemma cpe_is_logged_sessions_try (env : Env) :
  cpe_is_logged (get_tmux_sessions_try env).
Proof.
  unfold get_tmux_sessions_try.
  apply cpe_is_logged_bind; [apply cpe_is_logged_run|intros out].
  apply cpe_is_logged_for_each. intros line acc. unfold session_line_body.
  destruct (PyStr.is_empty line); [apply cpe_is_logged_ret|].
  destruct (PyStr.split ":" line) as [|a [|b [|c l]]];
    try (apply cpe_is_logged_raise, value_error_is_no_cpe).
  apply cpe_is_logged_bind; [apply cpe_is_logged_run|intros wout].
  apply cpe_is_logged_bind; [|intros ws; apply cpe_is_logged_ret].
  apply cpe_is_logged_for_each. intros wline wacc. unfold window_line_body.
  destruct (PyStr.is_empty wline); [apply cpe_is_logged_ret|].
  destruct (PyStr.split ":" wline) as [|i [|n [|a' [|d l]]]];
    try (apply cpe_is_logged_raise, value_error_is_no_cpe).
  destruct (PyStr.int i);
    [apply cpe_is_logged_ret|apply cpe_is_logged_raise, value_error_is_no_cpe].
Qed.

(** The inner loop is a pure parse of the non-empty lines, in order. *)
Lemma window_loop_parse (session : string) (lines : list string) :
  forall (acc r : list TmuxWindow) (st st' : State),
    for_each lines (window_line_body session) acc st = (Return r, st') ->
    st' = st
    /\ r = (acc ++ map (window_of_line session) (filter non_empty lines))%list
    /\ Forall window_line_ok (filter non_empty lines).
Proof.
  induction lines as [|line lines IH]; intros acc r st st' H.
  - injection H as <- <-. cbn. rewrite app_nil_r. auto.
  - cbn [for_each] in H. unfold bind in H.
    unfold window_line_body at 1 in H. cbn [filter].
    assert (Hne : non_empty line = negb (PyStr.is_empty line)) by reflexivity.
    destruct (PyStr.is_empty line) eqn:El; rewrite Hne; cbn [negb].
    + unfold ret at 1 in H. apply IH in H. exact H.
    + destruct (PyStr.split ":" line) as [|i [|n [|a [|d l]]]] eqn:Es;
        try discriminate H.
      destruct (PyStr.int i) as [z|] eqn:Ei; [|discriminate H].
      unfold ret at 1 in H. apply IH in H. destruct H as (-> & -> & Hok).
      assert (W : window_of_line session line
                  = mkTmuxWindow session z n (a =? "1")%string)
        by (unfold window_of_line; rewrite Es, Ei; reflexivity).
      split; [reflexivity|]. split.
      * cbn [map]. rewrite W, <- app_assoc. reflexivity.
      * constructor; [|exact Hok]. exists i, n, a, z. auto.
Qed.

(** One turn of the outer loop that returns: the line was empty, or it
    had two fields, its window list was answered and parsed. *)
Lemma session_line_body_parse (env : Env) (line : string)
    (acc acc' : list TmuxSession) (st st' : State) :
  session_line_body env line acc st = (Return acc', st') ->
  (non_empty line = false /\ acc' = acc /\ st' = st)
  \/ (non_empty line = true /\
      exists s ev,
        acc' = (acc ++ [s])%list /\ st' = log ev st /\
        (name s, attached s) = session_fields line /\
        answers_for s ev).
Proof.
  unfold session_line_body, non_empty, session_fields.
  destruct (PyStr.is_empty line); cbn [negb].
  - intros H. injection H as <- <-. left. auto.
  - destruct (PyStr.split ":" line) as [|n [|a [|c l]]]; try discriminate.
    unfold bind at 1. unfold subprocess_run.
    destruct (gateway env (trace st) (list_windows_cmd n)) as [wout|rc];
      [|discriminate].
    unfold bind.
    destruct (for_each (PyStr.split LF (PyStr.strip wout))
                (window_line_body n) [] _) as [[ws|e] st1] eqn:E;
      [|discriminate].
    apply window_loop_parse in E. destruct E as (-> & -> & Hok).
    intros H. injection H as <- <-. right. split; [reflexivity|].
    eexists. eexists. split; [reflexivity|]. split; [reflexivity|].
    split; [reflexivity|].
    exists wout. cbn [name windows]. auto.
Qed.

Lemma session_loop_parse (env : Env) (lines : list string) :
  forall (acc r : list TmuxSession) (st st' : State),
    for_each lines (session_line_body env) acc st = (Return r, st') ->
    exists added evs,
      r = (acc ++ added)%list
      /\ trace st' = (trace st ++ evs)%list
      /\ map (fun s => (name s, attached s)) added
         = map session_fields (filter non_empty lines)
      /\ Forall2 answers_for added evs.
Proof.
  induction lines as [|line lines IH]; intros acc r st st' H.
  - injection H as <- <-. exists [], []. cbn. rewrite !app_nil_r. auto.
  - cbn [for_each] in H. unfold bind in H.
    destruct (session_line_body env line acc st) as [[acc1|e] st1] eqn:E;
      [|discriminate H].
    apply session_line_body_parse in E.
    apply IH in H. destruct H as (added & evs & -> & Ht & Hm & Ha).
    cbn [filter].
    destruct E as [(Hn & -> & ->)|(Hn & s & ev & -> & -> & Hf & Hs)];
      rewrite Hn.
    + exists added, evs. auto.
    + exists (s :: added), (ev :: evs). split; [|split; [|split]].
      * rewrite <- app_assoc. reflexivity.
      * rewrite Ht. cbn [log trace]. rewrite <- app_assoc. reflexivity.
      * cbn [map]. rewrite Hf, Hm. reflexivity.
      * constructor; assumption.
Qed.

(** What a run of [get_tmux_sessions] without a failed call looks like. *)
Lemma get_tmux_sessions_parse (env : Env) (st st' : State)
    (sessions : list TmuxSession) :
  get_tmux_sessions env st = (Return sessions, st') ->
  existsb is_failed_run (new_events st st') = false ->
  exists out evs,
    gateway env (trace st) list_sessions_cmd = Completed out
    /\ new_events st st' = EvRun list_sessions_cmd (Completed out) :: evs
    /\ map (fun s => (name s, attached s)) sessions
       = map session_fields (filter non_empty (PyStr.split LF (PyStr.strip out)))
    /\ Forall2 answers_for sessions evs.
Proof.
  unfold get_tmux_sessions, try_except.
  destruct (cpe_is_logged_sessions_try env st) as (evs0 & Ht0 & Hf0).
  destruct (get_tmux_sessions_try env st) as [[l|e] st1] eqn:E;
    cbn [fst snd] in *.
  - intros H _. injection H as <- <-.
    unfold get_tmux_sessions_try, bind, subprocess_run in E.
    destruct (gateway env (trace st) list_sessions_cmd) as [out|rc];
      [|discriminate E].
    apply session_loop_parse in E.
    destruct E as (added & evs & -> & Ht & Hm & Ha).
    exists out, evs. split; [reflexivity|]. split; [|auto].
    apply new_events_extends. rewrite Ht. cbn [log trace].
    rewrite <- app_assoc. reflexivity.
  - destruct e; try discriminate.
    unfold bind, print, ret. intros H. injection H as <- <-.
    erewrite new_events_extends
      by (cbn [log trace]; rewrite Ht0, <- app_assoc; reflexivity).
    rewrite existsb_app, (Hf0 _ eq_refl) by (red; eauto).
    discriminate.
Qed.

(** X5.  When [get_tmux_sessions] returns without any of its queries
    having failed, the sessions it returns are, in order, the non-empty
    lines of the session list: each session's name is the first field of
    its line and it is attached exactly when the second field is "1". *)
Theorem sessions_mirror_session_list :
  forall (env : Env) (st st' : State) (sessions : list TmuxSession)
         (out : string),
    gateway env (trace st) list_sessions_cmd = Completed out ->
    get_tmux_sessions env st = (Return sessions, st') ->
    existsb is_failed_run (new_events st st') = false ->
    map (fun s => (name s, attached s)) sessions
    = map session_fields (filter non_empty (PyStr.split LF (PyStr.strip out))).
Proof.
  intros env st st' sessions out Hg Hs Hn.
  destruct (get_tmux_sessions_parse env st st' sessions Hs Hn)
    as (out' & evs & Hg' & _ & Hm & _).
  rewrite Hg in Hg'. injection Hg' as <-. exact Hm.
Qed.

Lemma sessions_mirror_session_list_witness :
  map (fun s => (name s, attached s)) two_sessions = [("a", true); ("b", false)].
Proof.
  rewrite (sessions_mirror_session_list env_two_sessions (StandIn.start [])
             (snd (get_tmux_sessions env_two_sessions (StandIn.start [])))
             two_sessions ("a:1" ++ NL ++ "b:0" ++ NL));
    reflexivity.
Defined.

(** X6.  When [get_tmux_sessions] returns without any of its queries
    having failed, its Gateway calls are the session-list query followed
    by exactly one window-list query per returned session, in order, and
    nothing else happened; the windows of each session are the non-empty
    lines of the answer to its query, in order, each with three fields of
    which the first is a number. *)
Theorem windows_mirror_window_lists :
  forall (env : Env) (st st' : State) (sessions : list TmuxSession),
    get_tmux_sessions env st = (Return sessions, st') ->
    existsb is_failed_run (new_events st st') = false ->
    exists out evs,
      new_events st st' = EvRun list_sessions_cmd (Completed out) :: evs
      /\ Forall2 answers_for sessions evs.
Proof.
  intros env st st' sessions Hs Hn.
  destruct (get_tmux_sessions_parse env st st' sessions Hs Hn)
    as (out & evs & _ & He & _ & Ha).
  exists out, evs. auto.
Qed.

Lemma windows_mirror_window_lists_witness :
  exists out evs,
    new_events (StandIn.start [])
      (snd (get_tmux_sessions env_two_sessions (StandIn.start [])))
    = EvRun list_sessions_cmd (Completed out) :: evs
    /\ Forall2 answers_for two_sessions evs.
Proof.
  apply (windows_mirror_window_lists env_two_sessions (StandIn.start [])
           (snd (get_tmux_sessions env_two_sessions (StandIn.start [])))
           two_sessions);
    reflexivity.
Defined.

(** ** The write path: prompts and standard input *)

Ltac events_by_trace :=
  cbn [fst snd log trace stdin];
  erewrite new_events_extends
    by (cbn [log trace]; repeat rewrite <- app_assoc; reflexivity).

(** X7.  With [safety_mode] off, or with [confirm=False], the dispatch is
    direct: [send_keys_to_window] neither prints the safety check nor
    reads standard input, it makes the one [send-keys] call and returns
    whether that call succeeded; a failure is followed by one message. *)
Theorem ungated_send_keys_is_direct :
  forall (env : Env) (self : TmuxOrchestrator) (session : string) (index : Z)
         (keys : string) (confirm : bool) (st : State),
    safety_mode self && confirm = false ->
    let cmd := send_keys_cmd session index keys in
    let r := gateway env (trace st) cmd in
    let res := send_keys_to_window env self session index keys confirm st in
    stdin (snd res) = stdin st
    /\ new_events st (snd res)
       = EvRun cmd r ::
         match r with
         | Completed _ => []
         | NonZero rc =>
             [EvPrint ("Error sending keys: " ++ cpe_str env cmd rc)]
         end
    /\ fst res
       = Return match r with Completed _ => true | NonZero _ => false end.
Proof.
  intros env self session index keys confirm st Hg cmd r res.
  subst res. rewrite send_keys_to_window_eq, Hg, send_keys_try_spec.
  fold cmd. fold r. destruct r as [out|rc].
  - split; [reflexivity|]. split; [|reflexivity]. now events_by_trace.
  - split; [reflexivity|]. split; [|reflexivity]. now events_by_trace.
Qed.

Lemma ungated_send_keys_is_direct_witness :
  let res :=
    send_keys_to_window env_accepts_keys init "dev" 0 "C-c" false
      (StandIn.start ["no"]) in
  safety_mode init && false = false
  /\ stdin (snd res) = ["no"]
  /\ fst res = Return true.
Proof.
  split; [reflexivity|].
  destruct (ungated_send_keys_is_direct env_accepts_keys init "dev" 0 "C-c"
              false (StandIn.start ["no"]) eq_refl) as (Hi & _ & Hr).
  split; [exact Hi|exact Hr].
Defined.

(** X8.  With the gate on and standard input at its end, the prompt
    raises [EOFError], which nothing catches: [send_keys_to_window] and
    [send_command_to_window] both end with it, after the safety message
    and the prompt and without any Gateway call. *)
Theorem closed_stdin_raises_eof_error :
  forall (env : Env) (self : TmuxOrchestrator) (session : string) (index : Z)
         (keys : string) (st : State),
    safety_mode self = true ->
    stdin st = [] ->
    let asked :=
      [EvPrint ("SAFETY CHECK: About to send '" ++ keys ++ "' to "
                ++ target session index);
       EvInput "Confirm? (yes/no): " None] in
    let keys_res := send_keys_to_window env self session index keys true st in
    let command_res :=
      send_command_to_window env self session index keys true st in
    fst keys_res = Raise EOFError
    /\ new_events st (snd keys_res) = asked
    /\ fst command_res = Raise EOFError
    /\ new_events st (snd command_res) = asked.
Proof.
  intros env self session index keys st Hs Hin asked keys_res command_res.
  assert (E : keys_res =
              (Raise EOFError,
               log (EvInput "Confirm? (yes/no): " None)
                   (log (EvPrint ("SAFETY CHECK: About to send '" ++ keys
                                  ++ "' to " ++ target session index)) st))).
  { subst keys_res. rewrite send_keys_to_window_eq, Hs, Hin. reflexivity. }
  assert (E' : command_res = keys_res).
  { subst command_res. unfold send_command_to_window, bind.
    fold keys_res. rewrite E. reflexivity. }
  rewrite E', E.
  split; [reflexivity|]. split; [now events_by_trace|].
  split; [reflexivity|now events_by_trace].
Qed.

Lemma closed_stdin_raises_eof_error_witness :
  safety_mode init = true
  /\ fst (send_command_to_window env_accepts_keys init "dev" 0 "ls" true
            (StandIn.start [])) = Raise EOFError.
Proof.
  split; [reflexivity|].
  destruct (closed_stdin_raises_eof_error env_accepts_keys init "dev" 0 "ls"
              (StandIn.start []) eq_refl eq_refl) as (_ & _ & Hc & _).
  exact Hc.
Defined.

(** X9.  [send_command_to_window] prompts once when the gate is on and
    never otherwise: it takes at most the first line of standard input
    and leaves the rest, so the [C-m] step never asks again. *)
Theorem command_prompts_at_most_once :
  forall (env : Env) (self : TmuxOrchestrator) (session : string) (index : Z)
         (command : string) (confirm : bool) (st : State),
    let res := send_command_to_window env self session index command confirm st in
    List.length (filter is_input (new_events st (snd res)))
    = (if safety_mode self && confirm then 1%nat else 0%nat)
    /\ stdin (snd res)
       = (if safety_mode self && confirm then tl (stdin st) else stdin st).
Proof.
  intros env self session index command confirm st res. subst res.
  unfold send_command_to_window, bind. rewrite send_keys_to_window_eq.
  assert (T : forall st0 evs0,
             trace st0 = (trace st ++ evs0)%list ->
             let res0 :=
               match send_keys_try env session index command st0 with
               | (Return sent, st1) =>
                   (if negb sent then ret false
                    else
                      try_except
                        (subprocess_run env (send_keys_cmd session index "C-m")
                         ;;; ret true)
                        (fun cmd rc =>
                           print ("Error sending Enter key: "
                                  ++ cpe_str env cmd rc) ;;; ret false)) st1
               | (Raise e, st1) => (Raise e, st1)
               end in
             List.length (filter is_input (new_events st (snd res0)))
             = List.length (filter is_input evs0)
             /\ stdin (snd res0) = stdin st0).
  { intros st0 evs0 Ht res0. subst res0. rewrite send_keys_try_spec.
    cbv zeta.
    destruct (gateway env (trace st0) (send_keys_cmd session index command))
      as [out|rc]; cbn [negb].
    - unfold try_except, bind, subprocess_run, ret, print.
      match goal with |- context [gateway env ?t ?c] =>
        destruct (gateway env t c) as [out'|rc'] end;
        cbn [fst snd log trace stdin];
        (erewrite new_events_extends
           by (cbn [log trace]; rewrite Ht; repeat rewrite <- app_assoc;
               reflexivity));
        rewrite filter_app; cbn; rewrite app_nil_r; auto.
    - unfold ret. cbn [fst snd log trace stdin].
      erewrite new_events_extends
        by (cbn [log trace]; rewrite Ht; repeat rewrite <- app_assoc;
            reflexivity).
      rewrite filter_app. cbn. rewrite app_nil_r. auto. }
  destruct (safety_mode self && confirm).
  - cbv zeta. destruct (stdin st) as [|line rest] eqn:Hin.
    + split; [now events_by_trace|]. cbn [snd log stdin]. exact Hin.
    + destruct (PyStr.lower line =? "yes")%string.
      * match goal with |- context [send_keys_try _ _ _ _ ?s] =>
          destruct (T s [EvPrint ("SAFETY CHECK: About to send '" ++ command
                                   ++ "' to " ++ target session index);
                          EvInput "Confirm? (yes/no): " (Some line)])
            as (Hl & Hs)
        end.
        { cbn [log trace]. rewrite <- app_assoc. reflexivity. }
        split; [exact Hl|exact Hs].
      * cbn [negb]. unfold ret. split; [now events_by_trace|reflexivity].
  - destruct (T st []) as (Hl & Hs); [now rewrite app_nil_r|].
    split; [exact Hl|exact Hs].
Qed.

(** ** The details of a window *)

(** X10.  An answer to the detail query that is not blank but is not in
    the four-field shape makes [get_window_info] raise, right after the
    query and before any capture: [IndexError] when there are fewer than
    three fields, [ValueError] when the third field is not a number,
    [IndexError] when there are exactly three fields. *)
Theorem malformed_detail_raises :
  forall (env : Env) (self : TmuxOrchestrator) (session : string) (index : Z)
         (st : State) (out : string),
    gateway env (trace st) (display_cmd session index) = Completed out ->
    PyStr.is_empty (PyStr.strip out) = false ->
    let parts := PyStr.split ":" (PyStr.strip out) in
    let st1 := log (EvRun (display_cmd session index) (Completed out)) st in
    ((List.length parts < 3)%nat ->
     get_window_info env self session index st = (Raise IndexError, st1))
    /\ (forall p2, nth_error parts 2 = Some p2 -> PyStr.int p2 = None ->
          get_window_info env self session index st = (Raise ValueError, st1))
    /\ (forall p2 panes,
          nth_error parts 2 = Some p2 -> PyStr.int p2 = Some panes ->
          List.length parts = 3%nat ->
          get_window_info env self session index st = (Raise IndexError, st1)).
Proof.
  intros env self session index st out Hg Hne parts st1.
  assert (E : get_window_info env self session index st =
              try_except
                (p0 <- subscript parts 0 ;;
                 p1 <- subscript parts 1 ;;
                 p2 <- subscript parts 2 ;;
                 panes <- int_of p2 ;;
                 p3 <- subscript parts 3 ;;
                 content <- capture_window_content env self session index 50 ;;
                 ret (Some (Detail (mkWindowDetail p0 (p1 =? "1")%string panes
                                      p3 content))))
                (fun cmd rc =>
                   ret (Some (ErrorInfo ("Could not get window info: "
                                         ++ cpe_str env cmd rc))))
                st1).
  { unfold get_window_info, try_except. unfold bind at 1.
    unfold subprocess_run. rewrite Hg, Hne. reflexivity. }
  rewrite E. clearbody parts. clear E.
  unfold try_except, bind, subscript, int_of, ret, raise.
  split; [|split].
  - intros Hl. destruct parts as [|p0 [|p1 [|p2 l]]]; cbn in Hl; try lia;
      reflexivity.
  - intros p2 Hn Hi. destruct parts as [|p0 [|p1 [|p2' l]]]; try discriminate Hn.
    cbn in Hn. injection Hn as ->. cbn [nth_error]. rewrite Hi. reflexivity.
  - intros p2 panes Hn Hi Hl.
    destruct parts as [|p0 [|p1 [|p2' [|p3 l]]]]; try discriminate Hl.
    cbn in Hn. injection Hn as ->. cbn [nth_error]. rewrite Hi. reflexivity.
Qed.

Lemma malformed_detail_raises_witness :
  get_window_info env_short_detail init "a" 0 (StandIn.start [])
  = (Raise IndexError,
     log (EvRun (display_cmd "a" 0) (Completed ("main:1" ++ NL)))
         (StandIn.start [])).
Proof.
  apply (proj1 (malformed_detail_raises env_short_detail init "a" 0
                  (StandIn.start []) ("main:1" ++ NL) eq_refl eq_refl)).
  vm_compute. lia.
Defined.

(** X11.  When the detail query is answered in the four-field shape,
    [get_window_info] makes exactly one more call, a capture of
    [min(50, max_lines_capture)] lines, and returns the detail dictionary
    built from the first four fields (further fields are ignored).  Its
    content is the captured text, or, when the capture fails, the text of
    the capture error: the failure of the capture does not turn the slot
    into an error dictionary. *)
Theorem detail_comes_with_capture :
  forall (env : Env) (self : TmuxOrchestrator) (session : string) (index : Z)
         (st : State) (out p0 p1 p2 p3 : string) (more : list string)
         (panes : Z),
    gateway env (trace st) (display_cmd session index) = Completed out ->
    PyStr.split ":" (PyStr.strip out) = p0 :: p1 :: p2 :: p3 :: more ->
    PyStr.int p2 = Some panes ->
    let st1 := log (EvRun (display_cmd session index) (Completed out)) st in
    let capture :=
      capture_cmd session index (Z.min 50 (max_lines_capture self)) in
    let r := gateway env (trace st1) capture in
    get_window_info env self session index st =
      (Return
         (Some (Detail
            (mkWindowDetail p0 (p1 =? "1")%string panes p3
               match r with
               | Completed text => text
               | NonZero rc =>
                   "Error capturing window content: " ++ cpe_str env capture rc
               end))),
       log (EvRun capture r) st1).
Proof.
  intros env self session index st out p0 p1 p2 p3 more panes Hg Hp Hi
         st1 capture r.
  unfold get_window_info, try_except.
  unfold bind at 1. unfold subprocess_run. rewrite Hg.
  rewrite (several_fields_not_empty ":" (PyStr.strip out))
    by (rewrite Hp; simpl; lia).
  rewrite Hp. unfold subscript, int_of. cbn [nth_error].
  unfold bind, ret. rewrite Hi.
  rewrite capture_window_content_eq. reflexivity.
Qed.

Lemma detail_comes_with_capture_witness :
  fst (get_window_info env_two_sessions init "a" 0 (StandIn.start []))
  = Return
      (Some (Detail
         (mkWindowDetail "Claude-Agent" true 1 "b25d,80x24,0,0,0"
            (NL ++ "line1" ++ NL ++ NL ++ "line2")))).
Proof.
  rewrite (detail_comes_with_capture env_two_sessions init "a" 0
             (StandIn.start []) ("Claude-Agent:1:1:b25d,80x24,0,0,0" ++ NL)
             "Claude-Agent" "1" "1" "b25d,80x24,0,0,0" [] 1);
    reflexivity.
Defined.

(** ** The status mirrors the session list *)

Lemma for_each_appends {X D : Type} (R : X -> D -> Prop)
    (body : X -> list D -> M (list D)) :
  (forall x acc st acc' st',
      body x acc st = (Return acc', st') ->
      exists d, acc' = (acc ++ [d])%list /\ R x d) ->
  forall xs acc st r st',
    for_each xs body acc st = (Return r, st') ->
    exists ds, r = (acc ++ ds)%list /\ Forall2 R xs ds.
Proof.
  intros Hbody xs. induction xs as [|x xs IH]; intros acc st r st' H.
  - injection H as <- _. exists []. rewrite app_nil_r. auto.
  - cbn [for_each] in H. unfold bind in H.
    destruct (body x acc st) as [[acc1|e] st1] eqn:E; [|discriminate H].
    destruct (Hbody _ _ _ _ _ E) as (d & -> & Hd).
    destruct (IH _ _ _ _ H) as (ds & -> & Hds).
    exists (d :: ds). rewrite <- app_assoc. auto.
Qed.

Lemma window_status_body_entry (env : Env) (self : TmuxOrchestrator)
    (s : TmuxSession) (w : TmuxWindow) (acc acc' : list WindowData)
    (st st' : State) :
  window_status_body env self s w acc st = (Return acc', st') ->
  exists d, acc' = (acc ++ [d])%list /\ window_entry w d.
Proof.
  unfold window_status_body, bind, ret.
  destruct (get_window_info env self (name s) (window_index w) st)
    as [[info|e] st1]; [|discriminate].
  intros H. injection H as <- _. eexists. split; [reflexivity|].
  repeat split.
Qed.

Lemma session_status_body_entry (env : Env) (self : TmuxOrchestrator)
    (s : TmuxSession) (acc acc' : list SessionData) (st st' : State) :
  session_status_body env self s acc st = (Return acc', st') ->
  exists d, acc' = (acc ++ [d])%list /\ session_entry s d.
Proof.
  unfold session_status_body, bind, ret.
  destruct (for_each (windows s) (window_status_body env self s) [] st)
    as [[ws|e] st1] eqn:E; [|discriminate].
  intros H. injection H as <- _. eexists. split; [reflexivity|].
  split; [reflexivity|]. split; [reflexivity|]. cbn [sd_windows].
  destruct (for_each_appends window_entry (window_status_body env self s)
              (fun x a t a' t' => window_status_body_entry env self s x a a' t t')
              _ _ _ _ _ E)
    as (ds & -> & Hds).
  exact Hds.
Qed.

(** X12.  Whenever [get_all_windows_status] returns, its status carries
    the time stamp and has one slot per session of the list that
    [get_tmux_sessions] returned and one slot per window of each session,
    in the same order, each slot repeating the name and attached flag of
    its session and the index, name and active flag of its window:
    nothing is sorted, dropped or merged. *)
Theorem status_mirrors_session_list :
  forall (env : Env) (self : TmuxOrchestrator) (st st1 st2 : State)
         (sessions : list TmuxSession) (status : Status),
    get_tmux_sessions env st = (Return sessions, st1) ->
    get_all_windows_status env self st = (Return status, st2) ->
    st_timestamp status = now_iso env
    /\ Forall2 session_entry sessions (st_sessions status).
Proof.
  intros env self st st1 st2 sessions status Hs.
  unfold get_all_windows_status. unfold bind at 1. rewrite Hs. unfold bind, ret.
  destruct (for_each sessions (session_status_body env self) [] st1)
    as [[ds|e] st3] eqn:E; [|discriminate].
  intros H. injection H as <- _. split; [reflexivity|].
  destruct (for_each_appends session_entry (session_status_body env self)
              (fun x a t a' t' => session_status_body_entry env self x a a' t t')
              _ _ _ _ _ E)
    as (ds' & -> & Hds).
  exact Hds.
Qed.

Lemma status_mirrors_session_list_witness :
  exists status,
    fst (get_all_windows_status env_two_sessions init (StandIn.start []))
      = Return status
    /\ st_timestamp status = "2024-01-01T00:00:00"
    /\ Forall2 session_entry two_sessions (st_sessions status).
Proof.
  eexists. split; [reflexivity|].
  apply (status_mirrors_session_list env_two_sessions init (StandIn.start [])
           (snd (get_tmux_sessions env_two_sessions (StandIn.start [])))
           (snd (get_all_windows_status env_two_sessions init
                   (StandIn.start [])))
           two_sessions);
    reflexivity.
Defined.

(** ** The digest *)

Lemma tail_lines_skipn {A : Type} (n : nat) (lines : list A) :
  PyStr.tail_lines n lines = skipn (List.length lines - n) lines.
Proof.
  unfold PyStr.tail_lines.
  destruct (n <? List.length lines)%nat eqn:E; [reflexivity|].
  apply Nat.ltb_ge in E.
  replace (List.length lines - n)%nat with 0%nat by lia. reflexivity.
Qed.

(** X13.  For a window with a detail dictionary the digest shows the
    heading of the window, the line [Recent output:] and then the
    non-blank lines among the last ten lines of the content, in order,
    each behind the marker: the cut to ten lines comes first and the
    blank lines are dropped afterwards, so at most ten lines are shown
    and blank lines among the last ten are not made up for by earlier
    ones. *)
Theorem digest_shows_last_ten_lines :
  forall (window : WindowData) (d : WindowDetail) (snapshot : string)
         (st : State),
    wd_info window = Some (Detail d) ->
    let lines := PyStr.split LF (d_content d) in
    let shown := filter non_blank (skipn (List.length lines - 10) lines) in
    render_window window snapshot st
    = (Return (snapshot ++ window_heading window
               ++ "    Recent output:" ++ NL
               ++ join_all (map digest_line shown)
               ++ NL),
       st)
    /\ (List.length shown <= 10)%nat.
Proof.
  intros window d snapshot st Hi lines shown. split.
  - unfold render_window, bind, ret. rewrite Hi.
    rewrite render_lines_spec, tail_lines_skipn. fold lines. fold shown.
    unfold window_heading.
    destruct (wd_active window); repeat rewrite append_assoc; reflexivity.
  - subst shown.
    etransitivity; [apply filter_length_le|]. rewrite length_skipn. lia.
Qed.

Lemma digest_shows_last_ten_lines_witness :
  fst (render_window
         (mkWindowData 0 "main" false
            (Some (Detail (mkWindowDetail "main" false 1 "b25d" twelve_lines))))
         "" (StandIn.start []))
  = Return ("  Window 0: main" ++ NL
            ++ "    Recent output:" ++ NL
            ++ "    | l4" ++ NL ++ "    | l5" ++ NL ++ "    | l6" ++ NL
            ++ "    | l7" ++ NL ++ "    | l8" ++ NL ++ "    | l9" ++ NL
            ++ "    | l10" ++ NL ++ "    | l11" ++ NL ++ "    | l12" ++ NL
            ++ NL).
Proof.
  rewrite (proj1 (digest_shows_last_ten_lines
                    (mkWindowData 0 "main" false
                       (Some (Detail (mkWindowDetail "main" false 1 "b25d"
                                        twelve_lines))))
                    (mkWindowDetail "main" false 1 "b25d" twelve_lines)
                    "" (StandIn.start []) eq_refl)).
  reflexivity.
Defined.

(** X14.  Rendering a status has no effect on the world, and it returns a
    text exactly when no window slot holds [None]. *)
Theorem digest_needs_every_slot_filled :
  forall (status : Status) (st : State),
    snd (render_status status st) = st
    /\ (has_unanswered status = false <->
        exists text, fst (render_status status st) = Return text).
Proof.
  intros status st. unfold render_status, has_unanswered.
  match goal with |- context [for_each _ _ ?t st] =>
    destruct (render_sessions_cases (st_sessions status) t st)
      as [[Hu E]|[Hu [text E]]]; rewrite Hu, E
  end; cbn [fst snd].
  - split; [reflexivity|]. split; [discriminate|].
    intros [text H]. discriminate H.
  - split; [reflexivity|]. split; [eauto|reflexivity].
Qed.





(** ** A malformed answer loses the whole status *)






